(** * Billing Invoicer: the HTTP gateway bootstrap ([server/server.js])

    A shallow embedding of the Express application assembled by [server.js]:
    the middleware stack in registration order, the three inline endpoints,
    the catch-all 404 layer and the terminal error layer, run by a model of
    the Express 4 router.  The npm packages the file calls ([express] with
    [parseurl] and [fresh], [cors], [body-parser] behind
    [express.json]/[express.urlencoded], and the [Date] object of the
    runtime) are modelled as far as the file relies on them.  A request
    comes with the path Express works with and, when it has a body, with the
    errors its parser raises on it; [helmet]'s header output, the entity tag
    of a body, the four route modules and [./middleware/errorHandler] stay
    parameters. *)

From stdpp Require Import gmap strings list fin_maps.
From Stdlib Require Import ZArith Ascii String DecimalString Lia.

#[local] Arguments String.append !s1 s2 /.

Local Open Scope string_scope.
Local Open Scope Z_scope.

(** ** The runtime's [Date]: time values and [toISOString]

    Time values are integral milliseconds since the epoch; the definitions
    follow ECMA-262 (Day, TimeWithinDay, DaysInYear, DayFromYear,
    YearFromTime, MonthFromTime, DateFromTime, ...). *)
Module JsDate.

Definition msPerDay : Z := 86400000.
Definition msPerHour : Z := 3600000.
Definition msPerMinute : Z := 60000.
Definition msPerSecond : Z := 1000.

(** A Date holds a time value of magnitude at most 8.64e15 ms. *)
Definition maxTime : Z := 8640000000000000.

Definition Day (t : Z) : Z := t / msPerDay.
Definition TimeWithinDay (t : Z) : Z := t mod msPerDay.

Definition isLeap (y : Z) : bool :=
  (y mod 4 =? 0) && (negb (y mod 100 =? 0) || (y mod 400 =? 0)).
Definition DaysInYear (y : Z) : Z := if isLeap y then 366 else 365.

Definition DayFromYear (y : Z) : Z :=
  365 * (y - 1970) + (y - 1969) / 4 - (y - 1901) / 100 + (y - 1601) / 400.

(** ECMA-262 has YearFromTime(t) as the largest [y] with
    TimeFromYear(y) <= t.  It is computed here from an estimate that is off
    by at most one; [YearFromDay_spec] shows it meets that description. *)
Definition YearFromDay (d : Z) : Z :=
  let e := 1970 + (d * 400) / 146097 in
  if DayFromYear (e + 1) <=? d then e + 1
  else if DayFromYear e <=? d then e
  else e - 1.
Definition YearFromTime (t : Z) : Z := YearFromDay (Day t).
Definition InLeapYear (t : Z) : Z := if isLeap (YearFromTime t) then 1 else 0.
Definition DayWithinYear (t : Z) : Z := Day t - DayFromYear (YearFromTime t).

Definition MonthFromTime (t : Z) : Z :=
  let d := DayWithinYear t in
  let l := InLeapYear t in
  if d <? 31 then 0
  else if d <? 59 + l then 1
  else if d <? 90 + l then 2
  else if d <? 120 + l then 3
  else if d <? 151 + l then 4
  else if d <? 181 + l then 5
  else if d <? 212 + l then 6
  else if d <? 243 + l then 7
  else if d <? 273 + l then 8
  else if d <? 304 + l then 9
  else if d <? 334 + l then 10
  else 11.

Definition DateFromTime (t : Z) : Z :=
  let d := DayWithinYear t in
  let l := InLeapYear t in
  match MonthFromTime t with
  | 0 => d + 1
  | 1 => d - 30
  | 2 => d - 58 - l
  | 3 => d - 89 - l
  | 4 => d - 119 - l
  | 5 => d - 150 - l
  | 6 => d - 180 - l
  | 7 => d - 211 - l
  | 8 => d - 242 - l
  | 9 => d - 272 - l
  | 10 => d - 303 - l
  | _ => d - 333 - l
  end.

Definition HourFromTime (t : Z) : Z := (t / msPerHour) mod 24.
Definition MinFromTime (t : Z) : Z := (t / msPerMinute) mod 60.
Definition SecFromTime (t : Z) : Z := (t / msPerSecond) mod 60.
Definition msFromTime (t : Z) : Z := t mod msPerSecond.

Definition digit (d : Z) : ascii := ascii_of_N (Z.to_N (48 + d)).

Definition digit_value (c : ascii) : option Z :=
  let n := Z.of_N (N_of_ascii c) in
  if (48 <=? n) && (n <=? 57) then Some (n - 48) else None.

(** [v] in decimal, most significant digit first, on exactly [width] digits. *)
Fixpoint pad (width : nat) (v : Z) : string :=
  match width with
  | O => ""
  | S w => String (digit (v / 10 ^ Z.of_nat w)) (pad w (v mod 10 ^ Z.of_nat w))
  end.

(** Years 0 to 9999 print on four digits, the others with a sign and six. *)
Definition year_string (y : Z) : string :=
  if (0 <=? y) && (y <=? 9999) then pad 4 y
  else if y <? 0 then "-" ++ pad 6 (- y)
  else "+" ++ pad 6 y.

(** [Date.prototype.toISOString] on a valid time value:
    YYYY-MM-DDTHH:mm:ss.sssZ, always in UTC. *)
Definition toISOString (t : Z) : string :=
  year_string (YearFromTime t) ++ "-" ++ pad 2 (MonthFromTime t + 1) ++ "-" ++
  pad 2 (DateFromTime t) ++ "T" ++ pad 2 (HourFromTime t) ++ ":" ++
  pad 2 (MinFromTime t) ++ ":" ++ pad 2 (SecFromTime t) ++ "." ++
  pad 3 (msFromTime t) ++ "Z".

(** *** Reading a timestamp back

    A reader for the complete form of the ISO-8601 profile that
    [Date.parse] accepts (date, time with milliseconds, and the UTC
    designator), with the range checks of that format. *)
Fixpoint read_digits (width : nat) (acc : Z) (s : string) : option (Z * string) :=
  match width with
  | O => Some (acc, s)
  | S w =>
    match s with
    | String c s' =>
      match digit_value c with
      | Some d => read_digits w (10 * acc + d) s'
      | None => None
      end
    | "" => None
    end
  end.

Definition expect (c : ascii) (s : string) : option string :=
  match s with
  | String c' s' => if Ascii.eqb c c' then Some s' else None
  | "" => None
  end.

(** An expanded year carries a sign and six digits; "-000000" is refused. *)
Definition read_year (s : string) : option (Z * string) :=
  match s with
  | String "+" s' => read_digits 6 0 s'
  | String "-" s' =>
    match read_digits 6 0 s' with
    | Some (0, _) => None
    | Some (y, r) => Some (- y, r)
    | None => None
    end
  | _ => read_digits 4 0 s
  end.

Definition monthStart (m : Z) (l : Z) : Z :=
  match m with
  | 0 => 0 | 1 => 31 | 2 => 59 + l | 3 => 90 + l | 4 => 120 + l | 5 => 151 + l
  | 6 => 181 + l | 7 => 212 + l | 8 => 243 + l | 9 => 273 + l | 10 => 304 + l
  | _ => 334 + l
  end.

Definition DaysInMonth (m : Z) (l : Z) : Z :=
  match m with
  | 1 => 28 + l
  | 3 | 5 | 8 | 10 => 30
  | _ => 31
  end.

(** MakeDay for a month in 0..11: the day number of the given civil date. *)
Definition MakeDay (year month date : Z) : Z :=
  DayFromYear year + monthStart month (if isLeap year then 1 else 0) + date - 1.
Definition MakeTime (h m s ms : Z) : Z :=
  h * msPerHour + m * msPerMinute + s * msPerSecond + ms.
Definition MakeDate (day time : Z) : Z := day * msPerDay + time.
Definition TimeClip (t : Z) : option Z :=
  if Z.abs t <=? maxTime then Some t else None.

Definition parse (s : string) : option Z :=
  '(y, s) ← read_year s;
  s ← expect "-" s;
  '(mo, s) ← read_digits 2 0 s;
  s ← expect "-" s;
  '(d, s) ← read_digits 2 0 s;
  s ← expect "T" s;
  '(h, s) ← read_digits 2 0 s;
  s ← expect ":" s;
  '(mi, s) ← read_digits 2 0 s;
  s ← expect ":" s;
  '(se, s) ← read_digits 2 0 s;
  s ← expect "." s;
  '(ms, s) ← read_digits 3 0 s;
  s ← expect "Z" s;
  if negb (String.eqb s "") then None
  else if negb ((1 <=? mo) && (mo <=? 12)) then None
  else if negb ((1 <=? d) && (d <=? DaysInMonth (mo - 1) (if isLeap y then 1 else 0)))
  then None
  else if negb ((h <=? 23) && (mi <=? 59) && (se <=? 59)
                || (h =? 24) && (mi =? 0) && (se =? 0) && (ms =? 0)) then None
  else TimeClip (MakeDate (MakeDay y (mo - 1) d) (MakeTime h mi se ms)).

End JsDate.

(** ** The Express 4 request pipeline *)
Module Express.

(** An error object travelling down the stack through [next(err)]. *)
Record HttpError := {
  err_name : string;
  err_status : Z;
  err_message : string }.

(** What the body parsers look at: the media type of [Content-Type]; the
    415 error the parser of that media type raises before it reads the body,
    when the charset or the [Content-Encoding] is not one it takes; the
    number of bytes of the decoded body; and the error the parser raises on
    the bytes once read, when it does not take them (a 400 for a text that
    is no JSON object or array, a 413 for more than 1000 URL-encoded
    parameters, ...).  The two errors are the parser's own objects. *)
Inductive MediaType := ApplicationJson | FormUrlencoded | OtherMedia.

Definition media_eqb (a b : MediaType) : bool :=
  match a, b with
  | ApplicationJson, ApplicationJson
  | FormUrlencoded, FormUrlencoded
  | OtherMedia, OtherMedia => true
  | _, _ => false
  end.

Record Payload := {
  media : MediaType;
  refusal : option HttpError;
  size : N;
  flaw : option HttpError }.

(** The charset and the content encoding are ones the parser takes. *)
Definition supported (p : Payload) : bool :=
  match refusal p with
  | None => true
  | Some _ => false
  end.

(** An inbound request: the method token as Node delivers it (upper case);
    the request target ([req.originalUrl]); the path the router works with,
    which is what [parseurl] makes of the target (see [parseurl] below, which
    computes it for the targets that can be computed here); the
    [Origin], [If-None-Match], [If-Modified-Since] and [Cache-Control]
    headers; and the body when the request has one. *)
Record Request := {
  method : string;
  originalUrl : string;
  path : string;
  origin : option string;
  ifNoneMatch : option string;
  ifModifiedSince : option string;
  cacheControl : option string;
  payload : option Payload }.

(** A body is nothing, a text ([res.send]), or the object given to
    [res.json]: string-valued properties in insertion order. *)
Inductive Body :=
| NoBody
| Text (s : string)
| Json (o : list (string * string)).

(** The response under construction; header names are kept in lower case,
    as Node stores them. *)
Record Response := {
  statusCode : Z;
  headers : gmap string string;
  body : Body }.

(** What a handler can touch: the response, and the lines printed with
    [console.log]. *)
Record State := {
  res : Response;
  console : list string }.

(** A handler calls [next()], calls [next(err)], or ends the response. *)
Inductive Step :=
| Next (st : State)
| NextErr (e : HttpError) (st : State)
| End (st : State).

(** What a mounted route module does with a request: it responds, passes
    the request on, or forwards an error. *)
Inductive RouterResult :=
| Respond (status : Z) (b : Body)
| PassOn
| Fail (e : HttpError).

Definition RouteModule : Type := Request -> RouterResult.
Definition ErrorHandler : Type := HttpError -> Request -> Z * Body.

(** *** The path of a request target ([parseurl])

    For a target that starts with a slash and holds, after it, no tab, line
    feed, form feed, carriage return, space, number sign or no-break space,
    [parseurl] takes the path itself: the target up to the first question
    mark.  Any other target it hands to Node's [url.parse]. *)
Fixpoint pathname (url : string) : string :=
  match url with
  | "" => ""
  | String c r => if Ascii.eqb c "?" then "" else String c (pathname r)
  end.

Definition hands_over (c : ascii) : bool :=
  let n := N_of_ascii c in
  ((n =? 9) || (n =? 10) || (n =? 12) || (n =? 13) || (n =? 32) || (n =? 35) ||
   (n =? 160))%N.

Fixpoint plain (s : string) : bool :=
  match s with
  | "" => true
  | String c r => negb (hands_over c) && plain r
  end.

(** [url.parse] is evaluated here for tame targets only: one slash, then
    printable ASCII characters other than the ones it rewrites (quotes,
    angle brackets, backslash, circumflex, grave accent, braces, bar) and
    the at sign.  Such a target has no scheme and no host, and its path ends
    at the first question mark or number sign.  For any other target the
    result is left open: [None]. *)
Definition tame (c : ascii) : bool :=
  let n := N_of_ascii c in
  ((33 <=? n) && (n <=? 126) &&
   negb ((n =? 34) || (n =? 39) || (n =? 60) || (n =? 62) || (n =? 64) || (n =? 92) ||
         (n =? 94) || (n =? 96) || (n =? 123) || (n =? 124) || (n =? 125)))%N.

Fixpoint all_tame (s : string) : bool :=
  match s with
  | "" => true
  | String c r => tame c && all_tame r
  end.

Fixpoint before_search_or_hash (url : string) : string :=
  match url with
  | "" => ""
  | String c r =>
    if Ascii.eqb c "?" || Ascii.eqb c "#" then "" else String c (before_search_or_hash r)
  end.

Definition url_parse (url : string) : option string :=
  match url with
  | String "/" (String "/" _) => None
  | String "/" r => if all_tame r then Some (before_search_or_hash url) else None
  | _ => None
  end.

Definition parseurl (url : string) : option string :=
  match url with
  | String "/" r => if plain r then Some (pathname url) else url_parse url
  | _ => url_parse url
  end.

Definition lower_ascii (c : ascii) : ascii :=
  let n := N_of_ascii c in
  if ((65 <=? n) && (n <=? 90))%N then ascii_of_N (n + 32) else c.

Fixpoint lower (s : string) : string :=
  match s with
  | "" => ""
  | String c r => String (lower_ascii c) (lower r)
  end.

Fixpoint strip_prefix (p s : string) : option string :=
  match p with
  | "" => Some s
  | String a p' =>
    match s with
    | String b s' => if Ascii.eqb a b then strip_prefix p' s' else None
    | "" => None
    end
  end.

(** A route path ([app.get(p, ...)]) compiles to [^p/?$] without case
    sensitivity: default routing is neither strict nor case sensitive. *)
Definition match_exact (p s : string) : bool :=
  let l := lower s in
  String.eqb l (lower p) || String.eqb l (lower p ++ "/").

(** A mount path ([app.use(p, ...)]) compiles to [^p/?(?=/|$)]: the path is
    [p] itself or continues with a slash. *)
Definition match_prefix (p s : string) : bool :=
  match strip_prefix (lower p) (lower s) with
  | Some "" => true
  | Some (String c _) => Ascii.eqb c "/"
  | None => false
  end.

(** *** Percent-decoding ([decodeURIComponent])

    The layer mounted at ['*'] captures the whole path as a parameter and
    decodes it.  Decoding throws when a percent sign is not followed by two
    hexadecimal digits or when the escaped octets are not well-formed
    UTF-8. *)
Definition hex_value (c : ascii) : option N :=
  let n := N_of_ascii c in
  if ((48 <=? n) && (n <=? 57))%N then Some (n - 48)%N
  else if ((65 <=? n) && (n <=? 70))%N then Some (n - 55)%N
  else if ((97 <=? n) && (n <=? 102))%N then Some (n - 87)%N
  else None.

Inductive Escape := Idle | High | Low (h : N).

Definition between (lo hi b : N) : bool := ((lo <=? b) && (b <=? hi))%N.

(** For a leading octet, the ranges its continuation octets must fall in. *)
Definition utf8_tail (b : N) : option (list (N * N)) :=
  let cont := (128, 191)%N in
  if (b <? 128)%N then Some []
  else if between 194 223 b then Some [cont]
  else if (b =? 224)%N then Some [(160, 191)%N; cont]
  else if between 225 236 b then Some [cont; cont]
  else if (b =? 237)%N then Some [(128, 159)%N; cont]
  else if between 238 239 b then Some [cont; cont]
  else if (b =? 240)%N then Some [(144, 191)%N; cont; cont]
  else if between 241 243 b then Some [cont; cont; cont]
  else if (b =? 244)%N then Some [(128, 143)%N; cont; cont]
  else None.

Fixpoint decode_ok (s : string) (e : Escape) (need : list (N * N)) : bool :=
  match s with
  | "" => match e, need with Idle, [] => true | _, _ => false end
  | String c r =>
    match e with
    | Idle =>
      if Ascii.eqb c "%" then decode_ok r High need
      else match need with [] => decode_ok r Idle [] | _ => false end
    | High =>
      match hex_value c with
      | Some h => decode_ok r (Low h) need
      | None => false
      end
    | Low h =>
      match hex_value c with
      | Some l =>
        let b := (16 * h + l)%N in
        match need with
        | [] =>
          match utf8_tail b with
          | Some n => decode_ok r Idle n
          | None => false
          end
        | (lo, hi) :: n => if between lo hi b then decode_ok r Idle n else false
        end
      | None => false
      end
    end
  end.

Definition decodable (s : string) : bool := decode_ok s Idle [].

Definition decode_error (s : string) : HttpError :=
  {| err_name := "URIError";
     err_status := 400;
     err_message := "Failed to decode param '" ++ s ++ "'" |}.

(** *** Layers *)

(** Where a layer is mounted: a route path, a mount path, the catch-all
    ['*'], or no path at all ([app.use(fn)]). *)
Inductive Mount :=
| RoutePath (verb : string) (p : string)
| MountPath (p : string)
| MountStar
| MountRoot.

(** Express tells error-handling middleware (four arguments) from the
    rest by arity.  An ordinary handler may read the clock. *)
Inductive Handler :=
| Normal (f : Z -> Request -> State -> Step)
| OnError (f : HttpError -> Request -> State -> Step).

Record Layer := {
  label : string;
  mount : Mount;
  handler : Handler }.

(** A route answers its own verb, and a GET route answers HEAD as well. *)
Definition handles_method (verb m : string) : bool :=
  String.eqb m verb || (String.eqb m "HEAD" && String.eqb verb "GET").

Inductive Matching := Matched | NoMatch | MatchError (e : HttpError).

Definition layer_match (l : Layer) (req : Request) : Matching :=
  match mount l with
  | RoutePath _ p => if match_exact p (path req) then Matched else NoMatch
  | MountPath p => if match_prefix p (path req) then Matched else NoMatch
  | MountStar =>
    if decodable (path req) then Matched else MatchError (decode_error (path req))
  | MountRoot => Matched
  end.

Definition is_route (l : Layer) : option string :=
  match mount l with
  | RoutePath verb _ => Some verb
  | _ => None
  end.

(** The last resort when the stack is exhausted (the [finalhandler]
    package): the error's status when it is an HTTP error status, else 500;
    a plain 404 when there is no error. *)
Definition finalhandler (err : option HttpError) (req : Request) (st : State) : State :=
  let r := res st in
  match err with
  | Some e =>
    let code := if (400 <=? err_status e) && (err_status e <=? 599)
                then err_status e else 500 in
    {| res := {| statusCode := code;
                 headers := <["content-type" := "text/html; charset=utf-8"]> (headers r);
                 body := Text (err_message e) |};
       console := console st |}
  | None =>
    {| res := {| statusCode := 404;
                 headers := <["content-type" := "text/html; charset=utf-8"]> (headers r);
                 body := Text ("Cannot " ++ method req ++ " " ++ path req) |};
       console := console st |}
  end.

(** The router's [next] loop over the remaining stack.  A matching error is
    kept unless an error is already pending; routes are passed over while an
    error is pending or when the verb differs; error middleware runs only
    with an error and ordinary middleware only without.  The second
    component records, in order, the layers whose handler ran. *)
Fixpoint dispatch (stack : list Layer) (err : option HttpError) (now : Z)
    (req : Request) (st : State) (trace : list string) : State * list string :=
  match stack with
  | [] => (finalhandler err req st, trace)
  | l :: rest =>
    match layer_match l req with
    | MatchError e =>
      dispatch rest (Some (default e err)) now req st trace
    | NoMatch => dispatch rest err now req st trace
    | Matched =>
      let continue (s : Step) :=
        match s with
        | Next st' => dispatch rest None now req st' (trace ++ [label l])%list
        | NextErr e st' => dispatch rest (Some e) now req st' (trace ++ [label l])%list
        | End st' => (st', (trace ++ [label l])%list)
        end in
      match is_route l, err, handler l with
      | Some verb, None, Normal f =>
        if handles_method verb (method req) then continue (f now req st)
        else dispatch rest err now req st trace
      | None, None, Normal f => continue (f now req st)
      | None, Some e, OnError f => continue (f e req st)
      | _, _, _ => dispatch rest err now req st trace
      end
    end
  end.

(** *** Response helpers *)

Definition set_default (k v : string) (h : gmap string string) : gmap string string :=
  match h !! k with
  | Some _ => h
  | None => <[k := v]> h
  end.

(** *** What goes on the wire: [JSON.stringify] on such an object *)
Definition hex_digit (n : N) : ascii :=
  if (n <? 10)%N then ascii_of_N (48 + n) else ascii_of_N (87 + n).

Definition quote_char (c : ascii) : string :=
  let n := N_of_ascii c in
  if (n =? 34)%N then "\" ++ String c ""
  else if (n =? 92)%N then "\\"
  else if (n =? 8)%N then "\b"
  else if (n =? 9)%N then "\t"
  else if (n =? 10)%N then "\n"
  else if (n =? 12)%N then "\f"
  else if (n =? 13)%N then "\r"
  else if (n <? 32)%N then "\u00" ++ String (hex_digit (n / 16)) (String (hex_digit (n mod 16)) "")
  else String c "".

Fixpoint quote_chars (s : string) : string :=
  match s with
  | "" => ""
  | String c r => quote_char c ++ quote_chars r
  end.

Definition dquote : string := String (ascii_of_N 34) "".

Definition quote (s : string) : string := dquote ++ quote_chars s ++ dquote.

Fixpoint members (o : list (string * string)) : string :=
  match o with
  | [] => ""
  | [(k, v)] => quote k ++ ":" ++ quote v
  | (k, v) :: rest => quote k ++ ":" ++ quote v ++ "," ++ members rest
  end.

Definition JSON_stringify (o : list (string * string)) : string :=
  "{" ++ members o ++ "}".

Definition wire (b : Body) : string :=
  match b with
  | NoBody => ""
  | Text s => s
  | Json o => JSON_stringify o
  end.

(** *** Conditional requests (the [fresh] package behind [req.fresh]) *)

(** What Express takes from its platform: the entity tag of a body (the
    default [etag fn], a hash of the bytes) and the comparison of two HTTP
    dates, [Date.parse(a) <= Date.parse(b)]. *)
Record Runtime := {
  etag : string -> string;
  not_after : string -> string -> bool }.

(** A header that is present and not empty. *)
Definition truthy (v : option string) : bool :=
  match v with
  | Some s => negb (String.eqb s "")
  | None => false
  end.

Fixpoint split_on (sep : ascii) (s : string) : list string :=
  match s with
  | "" => [""]
  | String c r =>
    if Ascii.eqb c sep then "" :: split_on sep r
    else match split_on sep r with
         | x :: l => String c x :: l
         | [] => [String c ""]
         end
  end.

Fixpoint drop_leading (ws : ascii -> bool) (s : string) : string :=
  match s with
  | "" => ""
  | String c r => if ws c then drop_leading ws r else s
  end.

Fixpoint drop_trailing (ws : ascii -> bool) (s : string) : string :=
  match s with
  | "" => ""
  | String c r =>
    let r' := drop_trailing ws r in
    if ws c && String.eqb r' "" then "" else String c r'
  end.

Definition trim (ws : ascii -> bool) (s : string) : string :=
  drop_trailing ws (drop_leading ws s).

(** [\s] of a regular expression, for code units below 256. *)
Definition white (c : ascii) : bool :=
  let n := N_of_ascii c in
  (((9 <=? n) && (n <=? 13)) || (n =? 32) || (n =? 160))%N.

Definition space (c : ascii) : bool := Ascii.eqb c " ".

(** [/(?:^|,)\s*?no-cache\s*?(?:,|$)/] on [Cache-Control]. *)
Definition no_cache (v : option string) : bool :=
  match v with
  | Some s => existsb (fun item => String.eqb (trim white item) "no-cache") (split_on "," s)
  | None => false
  end.

(** The tokens of [If-None-Match]: split at commas, spaces around dropped. *)
Definition parseTokenList (s : string) : list string :=
  trim space <$> split_on "," s.

(** [fresh(req.headers, {etag, last-modified})], version 0.5 as Express 4
    has it: an unconditional request is never fresh, nor one that says
    [no-cache]; then every validator the request carries must hold. *)
Definition freshness (rt : Runtime) (req : Request) (h : gmap string string) : bool :=
  let noneMatch := default "" (ifNoneMatch req) in
  let modifiedSince := default "" (ifModifiedSince req) in
  if negb (truthy (ifModifiedSince req)) && negb (truthy (ifNoneMatch req)) then false
  else if no_cache (cacheControl req) then false
  else
    let etag_ok :=
      if truthy (ifNoneMatch req) && negb (String.eqb noneMatch "*") then
        match h !! "etag" with
        | Some t =>
          negb (String.eqb t "") &&
          existsb (fun m => String.eqb m t || String.eqb m ("W/" ++ t) ||
                            String.eqb ("W/" ++ m) t)
                  (parseTokenList noneMatch)
        | None => false
        end
      else true in
    let modified_ok :=
      if truthy (ifModifiedSince req) then
        match h !! "last-modified" with
        | Some lm => negb (String.eqb lm "") && not_after rt lm modifiedSince
        | None => false
        end
      else true in
    etag_ok && modified_ok.

(** [req.fresh]: for GET and HEAD, on a 2xx or 304 status. *)
Definition req_fresh (rt : Runtime) (req : Request) (code : Z) (h : gmap string string)
    : bool :=
  (String.eqb (method req) "GET" || String.eqb (method req) "HEAD") &&
  ((200 <=? code) && (code <? 300) || (code =? 304)) &&
  freshness rt req h.

(** The request is unconditional (neither [If-None-Match] nor
    [If-Modified-Since]) or says [Cache-Control: no-cache]: no response to it
    is found fresh. *)
Definition asks_afresh (req : Request) : bool :=
  negb (truthy (ifModifiedSince req)) && negb (truthy (ifNoneMatch req)) ||
  no_cache (cacheControl req).

(** *** [res.send] *)

(** The number of bytes of a text in UTF-8, for code units below 256. *)
Fixpoint byte_length (s : string) : N :=
  match s with
  | "" => 0%N
  | String c r => ((if (N_of_ascii c <? 128)%N then 1 else 2) + byte_length r)%N
  end.

Definition decimal (n : N) : string := NilZero.string_of_uint (N.to_uint n).

(** The last step of [res.send]: a HEAD request gets the headers only. *)
Definition send (req : Request) (b : Body) : Body :=
  if String.eqb (method req) "HEAD" then NoBody else b.

(** [res.send] on a text body: [Content-Type] when none is set,
    [Content-Length], an [ETag] when none is set; a response that the
    request finds fresh becomes a 304; a 204 or 304 loses the body and its
    headers, a 205 the body. *)
Definition send_body (rt : Runtime) (type : string) (b : Body) (req : Request)
    (st : State) : State :=
  let text := wire b in
  let h := set_default "content-type" type (headers (res st)) in
  let h := <["content-length" := decimal (byte_length text)]> h in
  let h := if truthy (h !! "etag") then h else <["etag" := etag rt text]> h in
  let code := if req_fresh rt req (statusCode (res st)) h then 304
              else statusCode (res st) in
  if (code =? 204) || (code =? 304) then
    {| res := {| statusCode := code;
                 headers := delete "transfer-encoding"
                              (delete "content-length" (delete "content-type" h));
                 body := NoBody |};
       console := console st |}
  else if code =? 205 then
    {| res := {| statusCode := code;
                 headers := delete "transfer-encoding" (<["content-length" := "0"]> h);
                 body := NoBody |};
       console := console st |}
  else
    {| res := {| statusCode := code; headers := h; body := send req b |};
       console := console st |}.

Definition status (code : Z) (st : State) : State :=
  {| res := {| statusCode := code; headers := headers (res st); body := body (res st) |};
     console := console st |}.

(** [res.status(code).json(obj)] *)
Definition res_json (rt : Runtime) (code : Z) (o : list (string * string))
    (req : Request) (st : State) : State :=
  send_body rt "application/json; charset=utf-8" (Json o) req (status code st).

(** [res.send(text)]: the status is left as it is. *)
Definition res_send (rt : Runtime) (text : string) (req : Request) (st : State) : State :=
  send_body rt "text/html; charset=utf-8" (Text text) req st.

Definition with_headers (f : gmap string string -> gmap string string) (st : State) : State :=
  {| res := {| statusCode := statusCode (res st);
               headers := f (headers (res st));
               body := body (res st) |};
     console := console st |}.

Definition get_property (k : string) (o : list (string * string)) : option string :=
  snd <$> List.find (fun kv => String.eqb (fst kv) k) o.

(** *** The body parsers ([express.json], [express.urlencoded])

    A parser leaves alone a request without a body or with another media
    type.  Otherwise it refuses an unsupported charset or encoding (415),
    then a body over its limit (413), then a body whose content it does not
    take, each by [next(err)]. *)
Definition payload_too_large : HttpError :=
  {| err_name := "PayloadTooLargeError"; err_status := 413;
     err_message := "request entity too large" |}.

Definition parser_verdict (kind : MediaType) (limit : N) (req : Request)
    : option HttpError :=
  match payload req with
  | None => None
  | Some p =>
    if negb (media_eqb (media p) kind) then None
    else match refusal p with
         | Some e => Some e
         | None => if (limit <? size p)%N then Some payload_too_large else flaw p
         end
  end.

Definition body_parser (kind : MediaType) (limit : N) : Handler :=
  Normal (fun _ req st =>
    match parser_verdict kind limit req with
    | Some e => NextErr e st
    | None => Next st
    end).

(** [bytes('10mb')]: the units are binary. *)
Definition mb (n : N) : N := (n * 1024 * 1024)%N.

End Express.

(** ** The [cors] package, for the options this application passes *)
Module Cors.
Import Express.

Record CorsOptions := {
  cors_origin : option string -> bool;
  credentials : bool;
  optionsSuccessStatus : Z;
  methods : list string;
  allowedHeaders : list string }.

Fixpoint join (sep : string) (l : list string) : string :=
  match l with
  | [] => ""
  | [x] => x
  | x :: r => x ++ sep ++ join sep r
  end.

(** Adds a field to the [Vary] header. *)
Definition vary (field : string) (h : gmap string string) : gmap string string :=
  match h !! "vary" with
  | Some v => <["vary" := v ++ ", " ++ field]> h
  | None => <["vary" := field]> h
  end.

(** With an origin verdict of [true] the request's own [Origin] is echoed;
    a header whose value is undefined or empty is not written. *)
Definition configureOrigin (req : Request) (h : gmap string string) : gmap string string :=
  vary "Origin"
    (match origin req with
     | Some v => if String.eqb v "" then h else <["access-control-allow-origin" := v]> h
     | None => h
     end).

Definition configureCredentials (o : CorsOptions) (h : gmap string string)
    : gmap string string :=
  if credentials o then <["access-control-allow-credentials" := "true"]> h else h.

Definition configureMethods (o : CorsOptions) (h : gmap string string)
    : gmap string string :=
  <["access-control-allow-methods" := join "," (methods o)]> h.

Definition configureAllowedHeaders (o : CorsOptions) (h : gmap string string)
    : gmap string string :=
  match allowedHeaders o with
  | [] => h
  | l => <["access-control-allow-headers" := join "," l]> h
  end.

(** The middleware.  When the origin callback says no, the request goes on
    without CORS headers.  Otherwise an OPTIONS request is a preflight: it
    is answered on the spot with [optionsSuccessStatus] and an empty body
    ([preflightContinue] is off by default) and nothing after this layer
    runs; any other request gets its headers and goes on. *)
Definition cors (o : CorsOptions) : Handler :=
  Normal (fun _ req st =>
    if cors_origin o (origin req) then
      if String.eqb (method req) "OPTIONS" then
        let h := configureAllowedHeaders o (configureMethods o
                   (configureCredentials o (configureOrigin req (headers (res st))))) in
        End {| res := {| statusCode := optionsSuccessStatus o;
                         headers := <["content-length" := "0"]> h;
                         body := NoBody |};
               console := console st |}
      else
        Next (with_headers (fun h => configureCredentials o (configureOrigin req h)) st)
    else Next st).

End Cors.

(** ** The options given to [helmet] *)
Module Helmet.

Record Directives := {
  defaultSrc : list string;
  styleSrc : list string;
  imgSrc : list string;
  scriptSrc : list string;
  connectSrc : list string }.

(** [None] is a key the call leaves out. *)
Record HelmetOptions := {
  contentSecurityPolicy : option Directives;
  crossOriginEmbedderPolicy : option bool }.

End Helmet.

(** ** What [server.js] requires and does not define *)
Import Express Cors Helmet.

(** Modelled from the spec: the route modules [./routes/auth],
    [./routes/products], [./routes/invoices], [./routes/shop] and
    [./middleware/errorHandler] are not among the sources.  By the spec's
    route module contract a module responds or forwards an error (an
    Express router may also pass the request on); by its error-handler
    contract the error handler maps an error to a status and a body.
    [helmet(options)], from the npm package, rewrites response headers;
    which ones depends on the installed version, so it is a field too, and
    so is what Express takes from its platform. *)
Record Collaborators := {
  runtime : Runtime;
  helmet : HelmetOptions -> gmap string string -> gmap string string;
  authRoutes : RouteModule;
  productRoutes : RouteModule;
  invoiceRoutes : RouteModule;
  shopRoutes : RouteModule;
  errorHandler : ErrorHandler }.

(** Stand-ins, to run the application on concrete requests. *)
Module Sample.

Definition secure (o : HelmetOptions) (h : gmap string string) : gmap string string :=
  let h := delete "x-powered-by" (<["x-content-type-options" := "nosniff"]> h) in
  match contentSecurityPolicy o with
  | Some d => <["content-security-policy" := "default-src " ++ join " " (defaultSrc d)]> h
  | None => h
  end.

Definition router : RouteModule := fun req =>
  if String.eqb (method req) "POST" then Respond 201 (Json [("created", "yes")])
  else if String.eqb (method req) "DELETE" then
    Fail {| err_name := "Error"; err_status := 403; err_message := "forbidden" |}
  else PassOn.

Definition on_error : ErrorHandler := fun e _ =>
  (err_status e, Json [("error", err_message e)]).

(** The entity tag is a hash of the body; here, the body in quotes. *)
Definition platform : Runtime :=
  {| etag := fun text => "W/" ++ quote text;
     not_after := String.eqb |}.

(** Requests with the path [parseurl] computes from the target. *)
Definition request (m url : string) (o : option string) (p : option Payload) : Request :=
  {| method := m; originalUrl := url; path := default url (parseurl url);
     origin := o; ifNoneMatch := None; ifModifiedSince := None; cacheControl := None;
     payload := p |}.

Definition bare (m url : string) : Request := request m url None None.

Definition from (o m url : string) : Request := request m url (Some o) None.

Definition carrying (p : Payload) (m url : string) : Request :=
  request m url None (Some p).


(** 2026-11-02T04:00:00.123Z *)
Definition clock : Z := 1793592000123.

Definition development : gmap string string := ∅.
Definition live : gmap string string := {["NODE_ENV" := "production"; "PORT" := "8080"]}.

Definition get_health : Request := from "http://localhost:3000" "GET" "/Health/?probe=1".
Definition get_api_health : Request := bare "GET" "/api/health".
Definition get_ping : Request := bare "GET" "/ping".
Definition get_ping_query : Request := bare "GET" "/PING/?from=monitor&n=1".
Definition get_unknown : Request := from "http://localhost:3000" "GET" "/no-such-route?x=1".
Definition options_unknown : Request :=
  from "http://localhost:3000" "OPTIONS" "/no-such-route".
Definition post_health : Request := bare "POST" "/health".
Definition delete_item : Request := from "http://localhost:3000" "DELETE" "/api/shop/7".

Definition big_json : Request :=
  carrying {| media := ApplicationJson; refusal := None; size := 10485761;
              flaw := None |} "POST" "/api/invoices".


Definition big_text : Request :=
  carrying {| media := OtherMedia; refusal := None; size := 11534336;
              flaw := None |} "POST" "/api/auth/login".

Definition collaborators : Collaborators :=
  {| runtime := platform;
     helmet := secure;
     authRoutes := router;
     productRoutes := router;
     invoiceRoutes := router;
     shopRoutes := router;
     errorHandler := on_error |}.

End Sample.

(** ** [server.js] *)

(** [process.env] after [dotenv] has loaded: variable names to values. *)
Definition production (env : gmap string string) : bool :=
  bool_decide (env !! "NODE_ENV" = Some "production").

(** *** Line 15: [const PORT = process.env.PORT || 5000]

    The left operand is kept when it is truthy: a set, non-empty string. *)
Inductive PortValue :=
| PortString (s : string)
| PortNumber (n : Z).

Definition PORT (env : gmap string string) : PortValue :=
  match env !! "PORT" with
  | Some s => if String.eqb s "" then PortNumber 5000 else PortString s
  | None => PortNumber 5000
  end.

(** The value of a string of decimal digits. *)
Fixpoint decimal_digits (acc : Z) (s : string) : option Z :=
  match s with
  | "" => Some acc
  | String c r =>
    match JsDate.digit_value c with
    | Some d => decimal_digits (10 * acc + d) r
    | None => None
    end
  end.

Definition decimal_value (s : string) : option Z :=
  match s with
  | "" => None
  | _ => decimal_digits 0 s
  end.

(** What [app.listen(PORT)] comes to.  Node converts a string with unary
    plus; decimal numerals are covered.  Port 0 asks the operating system
    for any free port; a number beyond 65535 is refused with
    [ERR_SOCKET_BAD_PORT]; a text that is no decimal numeral (Node reads
    other notations, and takes what is no number for the name of a pipe) is
    not evaluated here. *)
Inductive Listening :=
| OnPort (n : Z)
| OnAnyPort
| BadPort
| NotDecimal.

Definition bind_port (n : Z) : Listening :=
  if n =? 0 then OnAnyPort
  else if (1 <=? n) && (n <=? 65535) then OnPort n
  else BadPort.

Definition listen_port (v : PortValue) : Listening :=
  match v with
  | PortNumber n => bind_port n
  | PortString s =>
    match decimal_value s with
    | Some n => bind_port n
    | None => NotDecimal
    end
  end.

(** *** Lines 22-28 *)
Definition corsOptions : CorsOptions :=
  {| cors_origin := fun _ => true;
     credentials := true;
     optionsSuccessStatus := 200;
     methods := ["GET"; "POST"; "PUT"; "DELETE"; "OPTIONS"];
     allowedHeaders := ["Content-Type"; "Authorization"] |}.

(** *** Lines 34-50: the two calls of [helmet] *)
Definition helmetOptions (env : gmap string string) : HelmetOptions :=
  if production env then
    {| contentSecurityPolicy := Some
         {| defaultSrc := ["'self'"];
            styleSrc := ["'self'"; "'unsafe-inline'"];
            imgSrc := ["'self'"; "data:"; "https:"];
            scriptSrc := ["'self'"];
            connectSrc := ["'self'"] |};
       crossOriginEmbedderPolicy := Some false |}
  else
    {| contentSecurityPolicy := None;
       crossOriginEmbedderPolicy := Some false |}.

(** *** Lines 55-60: the diagnostic request logger *)
Definition diagnostic_line (req : Request) : string :=
  "[REQ] " ++ method req ++ " " ++ originalUrl req ++ " - Origin: " ++
  default "undefined" (origin req).

Definition diagnostic : Handler :=
  Normal (fun _ req st =>
    Next {| res := res st; console := (console st ++ [diagnostic_line req])%list |}).

(** *** Lines 65-82: the inline endpoints *)
Definition health_body (now : Z) : list (string * string) :=
  [("status", "OK");
   ("message", "Billing Invoicer API is running");
   ("timestamp", JsDate.toISOString now)].

Definition api_health_body (now : Z) : list (string * string) :=
  [("status", "OK");
   ("message", "Billing Invoicer API (api path) is running");
   ("timestamp", JsDate.toISOString now)].

Definition health (rt : Runtime) : Handler :=
  Normal (fun now req st => End (res_json rt 200 (health_body now) req st)).

Definition api_health (rt : Runtime) : Handler :=
  Normal (fun now req st => End (res_json rt 200 (api_health_body now) req st)).

Definition ping (rt : Runtime) : Handler :=
  Normal (fun _ req st => End (res_send rt "pong" req st)).

(** *** Lines 91-96: the 404 handler *)
Definition not_found_body (req : Request) : list (string * string) :=
  [("error", "Route not found");
   ("message", "The endpoint " ++ originalUrl req ++ " does not exist")].

Definition not_found (rt : Runtime) : Handler :=
  Normal (fun _ req st => End (res_json rt 404 (not_found_body req) req st)).

(** Express's own first layer: the [X-Powered-By] header on a fresh 200. *)
Definition fresh : State :=
  {| res := {| statusCode := 200;
               headers := {["x-powered-by" := "Express"]};
               body := NoBody |};
     console := [] |}.

(** *** Lines 85-99: mounted route modules and the error handler *)
Definition respond (code : Z) (b : Body) (req : Request) (st : State) : State :=
  {| res := {| statusCode := code; headers := headers (res st); body := send req b |};
     console := console st |}.

Definition mounted (r : RouteModule) : Handler :=
  Normal (fun _ req st =>
    match r req with
    | Respond code b => End (respond code b req st)
    | PassOn => Next st
    | Fail e => NextErr e st
    end).

Definition error_layer (h : ErrorHandler) : Handler :=
  OnError (fun e req st => End (respond (h e req).1 (h e req).2 req st)).

(** *** The stack, in registration order *)

(** Lines 34-52: security headers, access log, CORS.  [morgan] only
    observes; the access log it writes is a stream of its own, apart from
    what [console.log] prints. *)
Definition security (c : Collaborators) (env : gmap string string) : list Layer :=
  [ {| label := "helmet"; mount := MountRoot;
       handler := Normal (fun _ _ st =>
         Next (with_headers (helmet c (helmetOptions env)) st)) |};
    {| label := "morgan"; mount := MountRoot;
       handler := Normal (fun _ _ st => Next st) |};
    {| label := "cors"; mount := MountRoot; handler := cors corsOptions |} ].

(** Lines 55-60. *)
Definition logging (env : gmap string string) : list Layer :=
  if production env then []
  else [ {| label := "diagnostic"; mount := MountRoot; handler := diagnostic |} ].

(** Lines 61-62. *)
Definition parsers : list Layer :=
  [ {| label := "express.json"; mount := MountRoot;
       handler := body_parser ApplicationJson (mb 10) |};
    {| label := "express.urlencoded"; mount := MountRoot;
       handler := body_parser FormUrlencoded (mb 10) |} ].

(** Lines 65-99. *)
Definition routes (c : Collaborators) : list Layer :=
  [ {| label := "GET /health"; mount := RoutePath "GET" "/health";
       handler := health (runtime c) |};
    {| label := "GET /api/health"; mount := RoutePath "GET" "/api/health";
       handler := api_health (runtime c) |};
    {| label := "GET /ping"; mount := RoutePath "GET" "/ping";
       handler := ping (runtime c) |};
    {| label := "/api/auth"; mount := MountPath "/api/auth";
       handler := mounted (authRoutes c) |};
    {| label := "/api/products"; mount := MountPath "/api/products";
       handler := mounted (productRoutes c) |};
    {| label := "/api/invoices"; mount := MountPath "/api/invoices";
       handler := mounted (invoiceRoutes c) |};
    {| label := "/api/shop"; mount := MountPath "/api/shop";
       handler := mounted (shopRoutes c) |};
    {| label := "*"; mount := MountStar; handler := not_found (runtime c) |};
    {| label := "errorHandler"; mount := MountRoot;
       handler := error_layer (errorHandler c) |} ].

Definition app (c : Collaborators) (env : gmap string string) : list Layer :=
  (security c env ++ logging env ++ parsers ++ routes c)%list.

(** One request through the application, at clock reading [now]: the final
    state and the layers that ran. *)
Definition handle (c : Collaborators) (env : gmap string string) (now : Z)
    (req : Request) : State * list string :=
  dispatch (app c env) None now req fresh [].

Definition response (c : Collaborators) (env : gmap string string) (now : Z)
    (req : Request) : Response :=
  res (handle c env now req).1.

Definition ran (c : Collaborators) (env : gmap string string) (now : Z)
    (req : Request) : list string :=
  (handle c env now req).2.

Definition printed (c : Collaborators) (env : gmap string string) (now : Z)
    (req : Request) : list string :=
  console (handle c env now req).1.

(** ** Vocabulary of the statements *)

(** The request is addressed to the route path [p]. *)
Definition targets (p : string) (req : Request) : bool := match_exact p (path req).

(** Neither body parser raises an error on the request. *)
Definition parsers_accept (req : Request) : bool :=
  match parser_verdict ApplicationJson (mb 10) req,
        parser_verdict FormUrlencoded (mb 10) req with
  | None, None => true
  | _, _ => false
  end.

(** The path is none of the three inline endpoints and under none of the
    four mount paths. *)
Definition unrouted (req : Request) : bool :=
  negb (targets "/health" req) && negb (targets "/api/health" req) &&
  negb (targets "/ping" req) &&
  negb (match_prefix "/api/auth" (path req)) &&
  negb (match_prefix "/api/products" (path req)) &&
  negb (match_prefix "/api/invoices" (path req)) &&
  negb (match_prefix "/api/shop" (path req)).

(** The state in which a request other than a preflight leaves the CORS
    layer, and the one in which it reaches the body parsers. *)
Definition after_cors (c : Collaborators) (env : gmap string string) (req : Request)
    : State :=
  with_headers
    (fun h => configureCredentials corsOptions
                (configureOrigin req (helmet c (helmetOptions env) h)))
    fresh.

Definition before_parsers (c : Collaborators) (env : gmap string string)
    (req : Request) : State :=
  if production env then after_cors c env req
  else {| res := res (after_cors c env req); console := [diagnostic_line req] |}.

Definition route_modules : list string :=
  ["/api/auth"; "/api/products"; "/api/invoices"; "/api/shop"].

(** The layers a request other than a preflight has been through when it
    reaches the body parsers. *)
Definition prelude (env : gmap string string) : list string :=
  (["helmet"; "morgan"; "cors"] ++ if production env then [] else ["diagnostic"])%list.

(** The answer to a preflight. *)
Definition preflight (c : Collaborators) (env : gmap string string) (req : Request)
    : State :=
  {| res := {| statusCode := 200;
               headers :=
                 <["content-length" := "0"]>
                   (configureAllowedHeaders corsOptions
                      (configureMethods corsOptions
                         (configureCredentials corsOptions
                            (configureOrigin req
                               (helmet c (helmetOptions env) (headers (res fresh)))))));
               body := NoBody |};
     console := [] |}.

(** A layer keeps a property of the state when its handler does, whatever
    way it hands over. *)
Definition step_state (s : Step) : State :=
  match s with
  | Next st | NextErr _ st | End st => st
  end.

(** Only the status, the body and the headers of the body differ. *)
Definition body_headers : list string :=
  ["content-type"; "content-length"; "etag"; "transfer-encoding"].

Definition same_beyond_body (st st' : State) : Prop :=
  console st' = console st /\
  forall k, k ∉ body_headers -> headers (res st') !! k = headers (res st) !! k.

Definition preserves (P : State -> Prop) (l : Layer) : Prop :=
  match handler l with
  | Normal f => forall now req st, P st -> P (step_state (f now req st))
  | OnError f => forall e req st, P st -> P (step_state (f e req st))
  end.

(** ** Further vocabulary *)

(** Lines 85-88: the mount table. *)
Definition mounts (c : Collaborators) : list (string * RouteModule) :=
  [("/api/auth", authRoutes c); ("/api/products", productRoutes c);
   ("/api/invoices", invoiceRoutes c); ("/api/shop", shopRoutes c)].

(** Lines 65-82: the paths of the inline endpoints. *)
Definition inline_paths : list string := ["/health"; "/api/health"; "/ping"].

(** The character does not occur in the string. *)
Fixpoint free_of (c : ascii) (s : string) : bool :=
  match s with
  | "" => true
  | String x r => negb (Ascii.eqb x c) && free_of c r
  end.

(** The labels of the layers that are not error-handling middleware. *)
Definition is_ordinary (l : Layer) : bool :=
  match handler l with
  | Normal _ => true
  | OnError _ => false
  end.

Definition ordinary (stack : list Layer) : list string :=
  label <$> List.filter is_ordinary stack.

(** On this request, at this clock reading, the layer raises no error:
    matching it does not fail and its handler does not call [next(err)]. *)
Definition raises_nothing (now : Z) (req : Request) (l : Layer) : Prop :=
  (forall e, layer_match l req <> MatchError e) /\
  match handler l with
  | Normal f => forall st e st', f now req st <> NextErr e st'
  | OnError _ => True
  end.

(** The layer is one the router would run for the request: its path
    matches and, for a route, so does the verb. *)
Definition applies (req : Request) (l : Layer) : bool :=
  match layer_match l req with
  | Matched =>
    match is_route l with
    | Some verb => handles_method verb (method req)
    | None => true
    end
  | _ => false
  end.

(** The state a response is built on, whatever layer builds it, for a
    request other than a preflight: the headers are those [helmet] and the
    CORS layer have set. *)
Definition cors_headers (c : Collaborators) (env : gmap string string) (req : Request)
    : gmap string string :=
  configureCredentials corsOptions
    (configureOrigin req (helmet c (helmetOptions env) (headers (res fresh)))).

(** More requests to run the application on. *)
Module Probe.

Definition post_product : Request := Sample.bare "POST" "/api/products".
Definition get_item : Request := Sample.bare "GET" "/api/shop/7".
Definition head_ping : Request := Sample.bare "HEAD" "/ping".
Definition get_broken : Request := Sample.bare "GET" "/%".

(** Targets with a fragment: it is no part of the path. *)
Definition get_health_fragment : Request := Sample.bare "GET" "/health#frag".
Definition post_auth_fragment : Request := Sample.bare "POST" "/api/auth#x".
Definition get_fragment_percent : Request := Sample.bare "GET" "/x#%".

End Probe.

(** ** Reading a body back: [JSON.parse] on what [JSON.stringify] writes

    A reader for objects with string values, for code units below 256. *)
Module JSON.
Import Express.

Definition dq : ascii := ascii_of_N 34.

(** The character a single-letter escape stands for. *)
Definition escape_value (e : ascii) : option ascii :=
  let n := N_of_ascii e in
  if (n =? 34)%N then Some e
  else if (n =? 92)%N then Some e
  else if (n =? 47)%N then Some e
  else if (n =? 98)%N then Some (ascii_of_N 8)
  else if (n =? 116)%N then Some (ascii_of_N 9)
  else if (n =? 110)%N then Some (ascii_of_N 10)
  else if (n =? 102)%N then Some (ascii_of_N 12)
  else if (n =? 114)%N then Some (ascii_of_N 13)
  else None.

(** After the opening quote: the content, and what follows the closing
    quote.  A raw control character is refused. *)
Fixpoint read_string (s : string) : option (string * string) :=
  match s with
  | "" => None
  | String c r =>
    if Ascii.eqb c dq then Some ("", r)
    else if Ascii.eqb c "\" then
      match r with
      | String "u" (String a (String b (String x (String y r')))) =>
        match hex_value a, hex_value b, hex_value x, hex_value y with
        | Some a, Some b, Some x, Some y =>
          let n := (((a * 16 + b) * 16 + x) * 16 + y)%N in
          if (n <? 256)%N then
            '(v, rest) ← read_string r'; Some (String (ascii_of_N n) v, rest)
          else None
        | _, _, _, _ => None
        end
      | String e r' =>
        match escape_value e with
        | Some ch => '(v, rest) ← read_string r'; Some (String ch v, rest)
        | None => None
        end
      | "" => None
      end
    else if (N_of_ascii c <? 32)%N then None
    else '(v, rest) ← read_string r; Some (String c v, rest)
  end.

Definition read_member (s : string) : option ((string * string) * string) :=
  s ← JsDate.expect dq s;
  '(k, s) ← read_string s;
  s ← JsDate.expect ":" s;
  s ← JsDate.expect dq s;
  '(v, s) ← read_string s;
  Some ((k, v), s).

Fixpoint read_members (fuel : nat) (s : string) : option (list (string * string)) :=
  match fuel with
  | O => None
  | S f =>
    '(kv, s) ← read_member s;
    match s with
    | String "," r => o ← read_members f r; Some (kv :: o)
    | String "}" "" => Some [kv]
    | _ => None
    end
  end.

Definition parse (s : string) : option (list (string * string)) :=
  match s with
  | String "{" r =>
    if String.eqb r "}" then Some [] else read_members (String.length r) r
  | _ => None
  end.

End JSON.

(** * Facts *)

(** ** Calendar arithmetic and the timestamp round trip *)
Module JsDateFacts.
Import JsDate.

Lemma DayFromYear_step y : DayFromYear (y + 1) = DayFromYear y + DaysInYear y.
Proof.
  unfold DayFromYear, DaysInYear, isLeap.
  destruct (y mod 4 =? 0) eqn:E4; destruct (y mod 100 =? 0) eqn:E100;
    destruct (y mod 400 =? 0) eqn:E400; simpl;
    rewrite ?Z.eqb_eq, ?Z.eqb_neq in *; Z.div_mod_to_equations; lia.
Qed.

Lemma YearFromDay_spec d :
  DayFromYear (YearFromDay d) <= d < DayFromYear (YearFromDay d + 1).
Proof.
  unfold YearFromDay.
  set (e := 1970 + d * 400 / 146097).
  assert (He : DayFromYear (e - 1) <= d < DayFromYear (e + 2)).
  { unfold DayFromYear, e. Z.div_mod_to_equations. lia. }
  destruct (DayFromYear (e + 1) <=? d) eqn:E1.
  - apply Z.leb_le in E1. replace (e + 1 + 1) with (e + 2) by lia. lia.
  - apply Z.leb_gt in E1. destruct (DayFromYear e <=? d) eqn:E0.
    + apply Z.leb_le in E0. lia.
    + apply Z.leb_gt in E0. replace (e - 1 + 1) with e by lia. lia.
Qed.

Lemma DayWithinYear_range t :
  0 <= DayWithinYear t < DaysInYear (YearFromTime t).
Proof.
  unfold DayWithinYear, YearFromTime.
  pose proof (YearFromDay_spec (Day t)) as H.
  rewrite DayFromYear_step in H. lia.
Qed.

Lemma InLeapYear_DaysInYear t : DaysInYear (YearFromTime t) = 365 + InLeapYear t.
Proof. unfold DaysInYear, InLeapYear. destruct (isLeap _); reflexivity. Qed.

Lemma InLeapYear_cases t : InLeapYear t = 0 \/ InLeapYear t = 1.
Proof. unfold InLeapYear. destruct (isLeap _); auto. Qed.

Ltac case_ltb :=
  repeat match goal with
  | |- context [ (?a <? ?b) ] =>
      let E := fresh "E" in
      destruct (a <? b) eqn:E; [apply Z.ltb_lt in E | apply Z.ltb_ge in E]
  end.

Lemma MonthFromTime_range t : 0 <= MonthFromTime t <= 11.
Proof. unfold MonthFromTime. case_ltb; lia. Qed.

Lemma month_date_inverse t :
  monthStart (MonthFromTime t) (InLeapYear t) + DateFromTime t - 1 = DayWithinYear t.
Proof.
  unfold DateFromTime, MonthFromTime. case_ltb; simpl; lia.
Qed.

Lemma DateFromTime_range t :
  1 <= DateFromTime t <= DaysInMonth (MonthFromTime t) (InLeapYear t).
Proof.
  pose proof (DayWithinYear_range t) as H. rewrite InLeapYear_DaysInYear in H.
  pose proof (InLeapYear_cases t) as L.
  unfold DateFromTime, MonthFromTime. case_ltb; simpl; lia.
Qed.

Lemma MakeDay_inverse t :
  MakeDay (YearFromTime t) (MonthFromTime t) (DateFromTime t) = Day t.
Proof.
  unfold MakeDay. fold (InLeapYear t).
  pose proof (month_date_inverse t). unfold DayWithinYear in *. lia.
Qed.

Lemma MakeTime_inverse t :
  MakeTime (HourFromTime t) (MinFromTime t) (SecFromTime t) (msFromTime t)
  = TimeWithinDay t.
Proof.
  unfold MakeTime, HourFromTime, MinFromTime, SecFromTime, msFromTime,
    TimeWithinDay, msPerHour, msPerMinute, msPerSecond, msPerDay.
  Z.div_mod_to_equations. lia.
Qed.

Lemma MakeDate_inverse t : MakeDate (Day t) (TimeWithinDay t) = t.
Proof.
  unfold MakeDate, Day, TimeWithinDay, msPerDay. Z.div_mod_to_equations. lia.
Qed.

Lemma time_fields_range t :
  0 <= HourFromTime t <= 23 /\ 0 <= MinFromTime t <= 59 /\
  0 <= SecFromTime t <= 59 /\ 0 <= msFromTime t <= 999.
Proof.
  unfold HourFromTime, MinFromTime, SecFromTime, msFromTime, msPerSecond.
  repeat split; Z.div_mod_to_equations; lia.
Qed.

Lemma YearFromTime_range t :
  - maxTime <= t <= maxTime -> -271821 <= YearFromTime t <= 275760.
Proof.
  intros Ht. unfold YearFromTime.
  pose proof (YearFromDay_spec (Day t)) as H.
  assert (Hd : -100000000 <= Day t <= 100000000).
  { unfold Day, msPerDay, maxTime in *. Z.div_mod_to_equations. lia. }
  revert H. generalize (YearFromDay (Day t)) as y. intros y H.
  unfold DayFromYear in H. Z.div_mod_to_equations. lia.
Qed.

Lemma digit_value_digit d : 0 <= d <= 9 -> digit_value (digit d) = Some d.
Proof.
  intros H.
  assert (C : d = 0 \/ d = 1 \/ d = 2 \/ d = 3 \/ d = 4 \/ d = 5 \/ d = 6 \/
              d = 7 \/ d = 8 \/ d = 9) by lia.
  repeat (destruct C as [-> | C]; [reflexivity |]). subst. reflexivity.
Qed.

Lemma read_digits_pad w v acc rest :
  0 <= v < 10 ^ Z.of_nat w ->
  read_digits w acc (pad w v ++ rest) = Some (acc * 10 ^ Z.of_nat w + v, rest).
Proof.
  revert v acc. induction w as [|w IH]; intros v acc Hv.
  - simpl in *. f_equal. f_equal. lia.
  - rewrite Nat2Z.inj_succ, Z.pow_succ_r in * by lia.
    assert (Hp : 0 < 10 ^ Z.of_nat w) by (apply Z.pow_pos_nonneg; lia).
    cbn [pad read_digits String.append]. 
    rewrite digit_value_digit.
    2:{ split; [apply Z.div_pos; lia | apply Z.lt_succ_r, Z.div_lt_upper_bound; lia]. }
    rewrite IH by (apply Z.mod_pos_bound; lia).
    f_equal. f_equal.
    pose proof (Z.div_mod v (10 ^ Z.of_nat w)). nia.
Qed.

Lemma read_year_digit d s :
  0 <= d <= 9 -> read_year (String (digit d) s) = read_digits 4 0 (String (digit d) s).
Proof.
  intros H.
  assert (C : d = 0 \/ d = 1 \/ d = 2 \/ d = 3 \/ d = 4 \/ d = 5 \/ d = 6 \/
              d = 7 \/ d = 8 \/ d = 9) by lia.
  repeat (destruct C as [-> | C]; [reflexivity |]). subst. reflexivity.
Qed.

Lemma read_year_year_string y rest :
  -999999 <= y <= 999999 ->
  read_year (year_string y ++ rest) = Some (y, rest).
Proof.
  intros Hy. unfold year_string.
  destruct ((0 <=? y) && (y <=? 9999)) eqn:E.
  - apply andb_true_iff in E as [E1 E2]. apply Z.leb_le in E1, E2.
    pose proof (read_digits_pad 4 y 0 rest) as R.
    cbn [pad String.append] in *.
    rewrite read_year_digit by (simpl; split; Z.div_mod_to_equations; lia).
    rewrite R by (simpl; lia). f_equal.
  - destruct (y <? 0) eqn:En.
    + apply Z.ltb_lt in En. cbn [String.append read_year].
      rewrite read_digits_pad by (simpl; lia).
      replace (0 * 10 ^ Z.of_nat 6 + - y) with (- y) by lia.
      destruct (- y) eqn:Ey; try lia; f_equal; f_equal; lia.
    + cbn [String.append read_year].
      rewrite read_digits_pad by (simpl; lia). f_equal.
Qed.

Theorem parse_toISOString t :
  - maxTime <= t <= maxTime -> parse (toISOString t) = Some t.
Proof.
  intros Ht.
  pose proof (YearFromTime_range t Ht) as Hy.
  pose proof (MonthFromTime_range t) as Hm.
  pose proof (DateFromTime_range t) as Hd.
  pose proof (time_fields_range t) as (Hh & Hmi & Hs & Hms).
  assert (Hdm : DaysInMonth (MonthFromTime t) (InLeapYear t) <= 31).
  { pose proof (InLeapYear_cases t). unfold DaysInMonth.
    repeat match goal with |- context [match ?x with _ => _ end] => destruct x end; lia. }
  unfold parse, toISOString.
  rewrite read_year_year_string by lia. cbn [mbind option_bind expect String.append Ascii.eqb Bool.eqb].
  repeat (rewrite read_digits_pad by (simpl; lia);
          cbn [mbind option_bind expect String.append Ascii.eqb Bool.eqb]).
  replace (0 * 10 ^ Z.of_nat 2 + (MonthFromTime t + 1) - 1) with (MonthFromTime t) by lia.
  fold (InLeapYear t).
  replace (0 * 10 ^ Z.of_nat 2 + (MonthFromTime t + 1)) with (MonthFromTime t + 1) by lia.
  replace (0 * 10 ^ Z.of_nat 2 + DateFromTime t) with (DateFromTime t) by lia.
  replace (0 * 10 ^ Z.of_nat 2 + HourFromTime t) with (HourFromTime t) by lia.
  replace (0 * 10 ^ Z.of_nat 2 + MinFromTime t) with (MinFromTime t) by lia.
  replace (0 * 10 ^ Z.of_nat 2 + SecFromTime t) with (SecFromTime t) by lia.
  replace (0 * 10 ^ Z.of_nat 3 + msFromTime t) with (msFromTime t) by lia.
  rewrite MakeDay_inverse, MakeTime_inverse, MakeDate_inverse.
  replace (1 <=? MonthFromTime t + 1) with true by (symmetry; apply Z.leb_le; lia).
  replace (MonthFromTime t + 1 <=? 12) with true by (symmetry; apply Z.leb_le; lia).
  replace (1 <=? DateFromTime t) with true by (symmetry; apply Z.leb_le; lia).
  replace (DateFromTime t <=? DaysInMonth (MonthFromTime t) (InLeapYear t))
    with true by (symmetry; apply Z.leb_le; lia).
  replace (HourFromTime t <=? 23) with true by (symmetry; apply Z.leb_le; lia).
  replace (MinFromTime t <=? 59) with true by (symmetry; apply Z.leb_le; lia).
  replace (SecFromTime t <=? 59) with true by (symmetry; apply Z.leb_le; lia).
  cbn. unfold TimeClip.
  replace (Z.abs t <=? maxTime) with true by (symmetry; apply Z.leb_le; lia).
  reflexivity.
Qed.
End JsDateFacts.

(** ** The router *)
Module ExpressFacts.
Import Express.

(** One step of [dispatch], by the kind of the layer on top of the stack. *)
Section Steps.
Variables (rest : list Layer) (now : Z) (req : Request) (st : State) (tr : list string).

Lemma dispatch_use lbl f :
  dispatch ({| label := lbl; mount := MountRoot; handler := Normal f |} :: rest)
    None now req st tr =
  match f now req st with
  | Next st' => dispatch rest None now req st' (tr ++ [lbl])
  | NextErr e st' => dispatch rest (Some e) now req st' (tr ++ [lbl])
  | End st' => (st', (tr ++ [lbl])%list)
  end.
Proof. reflexivity. Qed.

Lemma dispatch_use_pending lbl f e :
  dispatch ({| label := lbl; mount := MountRoot; handler := Normal f |} :: rest)
    (Some e) now req st tr = dispatch rest (Some e) now req st tr.
Proof. reflexivity. Qed.

Lemma dispatch_route lbl verb p f :
  dispatch ({| label := lbl; mount := RoutePath verb p; handler := Normal f |} :: rest)
    None now req st tr =
  if match_exact p (path req) && handles_method verb (method req) then
    match f now req st with
    | Next st' => dispatch rest None now req st' (tr ++ [lbl])
    | NextErr e st' => dispatch rest (Some e) now req st' (tr ++ [lbl])
    | End st' => (st', (tr ++ [lbl])%list)
    end
  else dispatch rest None now req st tr.
Proof.
  simpl. unfold layer_match. simpl.
  destruct (match_exact _ _); simpl; [| done]. by destruct (handles_method _ _).
Qed.

Lemma dispatch_route_pending lbl verb p f e :
  dispatch ({| label := lbl; mount := RoutePath verb p; handler := Normal f |} :: rest)
    (Some e) now req st tr = dispatch rest (Some e) now req st tr.
Proof. simpl. unfold layer_match. simpl. by destruct (match_exact _ _). Qed.

Lemma dispatch_mount lbl p f :
  dispatch ({| label := lbl; mount := MountPath p; handler := Normal f |} :: rest)
    None now req st tr =
  if match_prefix p (path req) then
    match f now req st with
    | Next st' => dispatch rest None now req st' (tr ++ [lbl])
    | NextErr e st' => dispatch rest (Some e) now req st' (tr ++ [lbl])
    | End st' => (st', (tr ++ [lbl])%list)
    end
  else dispatch rest None now req st tr.
Proof. simpl. unfold layer_match. simpl. by destruct (match_prefix _ _). Qed.

Lemma dispatch_mount_pending lbl p f e :
  dispatch ({| label := lbl; mount := MountPath p; handler := Normal f |} :: rest)
    (Some e) now req st tr = dispatch rest (Some e) now req st tr.
Proof. simpl. unfold layer_match. simpl. by destruct (match_prefix _ _). Qed.

Lemma dispatch_star lbl f :
  dispatch ({| label := lbl; mount := MountStar; handler := Normal f |} :: rest)
    None now req st tr =
  if decodable (path req) then
    match f now req st with
    | Next st' => dispatch rest None now req st' (tr ++ [lbl])
    | NextErr e st' => dispatch rest (Some e) now req st' (tr ++ [lbl])
    | End st' => (st', (tr ++ [lbl])%list)
    end
  else dispatch rest (Some (decode_error (path req))) now req st tr.
Proof. simpl. unfold layer_match. simpl. by destruct (decodable _). Qed.

Lemma dispatch_star_pending lbl f e :
  dispatch ({| label := lbl; mount := MountStar; handler := Normal f |} :: rest)
    (Some e) now req st tr = dispatch rest (Some e) now req st tr.
Proof. simpl. unfold layer_match. simpl. by destruct (decodable _). Qed.

Lemma dispatch_on_error lbl f e :
  dispatch ({| label := lbl; mount := MountRoot; handler := OnError f |} :: rest)
    (Some e) now req st tr =
  match f e req st with
  | Next st' => dispatch rest None now req st' (tr ++ [lbl])
  | NextErr e st' => dispatch rest (Some e) now req st' (tr ++ [lbl])
  | End st' => (st', (tr ++ [lbl])%list)
  end.
Proof. reflexivity. Qed.

End Steps.


(** A property of the state that every layer and the last resort keep holds
    at the end if it holds at the start. *)
Lemma dispatch_invariant (P : State -> Prop) stack :
  (forall err req st, P st -> P (finalhandler err req st)) ->
  Forall (preserves P) stack ->
  forall err now req st tr, P st -> P (dispatch stack err now req st tr).1.
Proof.
  intros Hfin Hall. induction Hall as [|l rest Hl _ IH]; intros err now req st tr HP.
  - simpl. by apply Hfin.
  - assert (Run : forall s, P (step_state s) ->
      P (match s with
         | Next st' => dispatch rest None now req st' (tr ++ [label l])
         | NextErr e st' => dispatch rest (Some e) now req st' (tr ++ [label l])
         | End st' => (st', (tr ++ [label l])%list)
         end).1).
    { intros [st'|e st'|st'] Hs; simpl in *; auto. }
    unfold preserves in Hl. simpl.
    destruct (layer_match l req); [| by apply IH | by apply IH].
    destruct (is_route l), err, (handler l); try (by apply IH);
      try (apply Run; by apply Hl).
    destruct (handles_method _ _); [apply Run; by apply Hl | by apply IH].
Qed.

(** A route path admits its own spelling, in any letter case, with or
    without a trailing slash. *)
Lemma match_exact_cases p s :
  match_exact p s = true -> lower s = lower p \/ lower s = lower p ++ "/".
Proof.
  unfold match_exact. intros H. apply orb_true_iff in H as [H | H];
    apply String.eqb_eq in H; auto.
Qed.

Lemma pathname_prefix url : String.prefix (pathname url) url = true.
Proof.
  induction url as [|ch r IH]; [done |]. simpl.
  destruct (Ascii.eqb ch "?"); [done |]. simpl.
  destruct (ascii_dec ch ch); [exact IH | congruence].
Qed.

Lemma before_search_or_hash_prefix url :
  String.prefix (before_search_or_hash url) url = true.
Proof.
  induction url as [|ch r IH]; [done |]. simpl.
  destruct (Ascii.eqb ch "?" || Ascii.eqb ch "#"); [done |]. simpl.
  destruct (ascii_dec ch ch); [exact IH | congruence].
Qed.

Lemma url_parse_prefix url p : url_parse url = Some p -> String.prefix p url = true.
Proof.
  unfold url_parse. destruct url as [|ch r]; [done |].
  destruct (Ascii.eqb ch "/") eqn:E.
  - apply Ascii.eqb_eq in E as ->. destruct r as [|ch' r']; [by intros [= <-] |].
    destruct (Ascii.eqb ch' "/") eqn:E'.
    + by apply Ascii.eqb_eq in E' as ->.
    + assert (H : (if all_tame (String ch' r')
                   then Some (before_search_or_hash (String "/" (String ch' r')))
                   else None) = Some p -> String.prefix p (String "/" (String ch' r')) = true).
      { destruct (all_tame _); [| done]. intros [= <-].
        exact (before_search_or_hash_prefix (String "/" (String ch' r'))). }
      destruct ch' as [[] [] [] [] [] [] [] []]; try done; exact H.
  - destruct ch as [[] [] [] [] [] [] [] []]; try done.
Qed.

(** The path [parseurl] reads off a target opens that target. *)
Lemma parseurl_prefix url p : parseurl url = Some p -> String.prefix p url = true.
Proof.
  unfold parseurl. destruct url as [|ch r]; [done |].
  destruct (Ascii.eqb ch "/") eqn:E.
  - apply Ascii.eqb_eq in E as ->. destruct (plain r); [| apply url_parse_prefix].
    intros [= <-]. apply pathname_prefix.
  - assert (H : url_parse (String ch r) = Some p -> String.prefix p (String ch r) = true)
      by apply url_parse_prefix.
    destruct ch as [[] [] [] [] [] [] [] []]; try done; exact H.
Qed.

(** *** [res.send] and conditional requests *)

Lemma req_fresh_afresh rt req code h :
  asks_afresh req = true -> req_fresh rt req code h = false.
Proof.
  unfold asks_afresh, req_fresh, freshness. intros [H | H]%orb_true_iff.
  - rewrite H. apply andb_false_r.
  - rewrite H. destruct (negb _ && negb _); apply andb_false_r.
Qed.

Lemma req_fresh_error rt req code h :
  300 <= code -> code <> 304 -> req_fresh rt req code h = false.
Proof.
  intros H1 H2. unfold req_fresh.
  replace (code <? 300) with false by (symmetry; apply Z.ltb_ge; lia).
  replace (code =? 304) with false by (symmetry; apply Z.eqb_neq; lia).
  rewrite andb_false_r. cbn [orb]. by rewrite andb_false_r.
Qed.

(** Unless the status is 204, 205 or 304, a response that is not found
    fresh keeps its status and gets the body. *)
Lemma send_body_stale rt type b req st :
  (forall h, req_fresh rt req (statusCode (res st)) h = false) ->
  statusCode (res st) <> 204 -> statusCode (res st) <> 205 ->
  statusCode (res st) <> 304 ->
  statusCode (res (send_body rt type b req st)) = statusCode (res st) /\
  body (res (send_body rt type b req st)) = send req b.
Proof.
  intros Hf H1 H2 H3. unfold send_body. rewrite Hf.
  apply Z.eqb_neq in H1, H2, H3. by rewrite H1, H2, H3.
Qed.

Lemma res_json_stale rt code o req st :
  asks_afresh req = true \/ 300 <= code ->
  code <> 204 -> code <> 205 -> code <> 304 ->
  statusCode (res (res_json rt code o req st)) = code /\
  body (res (res_json rt code o req st)) = send req (Json o).
Proof.
  intros Hf H1 H2 H3. unfold res_json.
  apply (send_body_stale rt _ (Json o) req (status code st)); try done.
  intros h. cbn [status res statusCode].
  destruct Hf as [Hf | Hf]; [by apply req_fresh_afresh | by apply req_fresh_error].
Qed.

(** On a 200 the answer is the body, or a 304 without it; the latter only
    to a conditional request. *)
Lemma send_body_ok rt type b req st :
  statusCode (res st) = 200 ->
  (statusCode (res (send_body rt type b req st)) = 200 /\
   body (res (send_body rt type b req st)) = send req b) \/
  (asks_afresh req = false /\
   statusCode (res (send_body rt type b req st)) = 304 /\
   body (res (send_body rt type b req st)) = NoBody).
Proof.
  intros Hs. unfold send_body. rewrite Hs.
  match goal with |- context [req_fresh rt req 200 ?h] =>
    pose proof (req_fresh_afresh rt req 200 h) as Hf;
    destruct (req_fresh rt req 200 h)
  end.
  - right. cbn. destruct (asks_afresh req); [by discriminate Hf | done].
  - left. by cbn.
Qed.

(** [res.send] writes the headers of the body and no other. *)
Lemma send_body_same rt type b req st : same_beyond_body st (send_body rt type b req st).
Proof.
  assert (Hset : forall k v (h : gmap string string) k',
    k' <> k -> set_default k v h !! k' = h !! k').
  { intros k v h k' Hne. unfold set_default. destruct (h !! k); [done |].
    by rewrite lookup_insert_ne. }
  unfold send_body.
  set (h1 := <["content-length" := _]> (set_default "content-type" type (headers (res st)))).
  set (h2 := if truthy (h1 !! "etag") then h1 else <["etag" := _]> h1).
  assert (H2 : forall k, k ∉ body_headers -> h2 !! k = headers (res st) !! k).
  { intros k Hk. unfold body_headers in Hk. rewrite !not_elem_of_cons in Hk.
    destruct Hk as (K1 & K2 & K3 & K4 & _).
    assert (E1 : h1 !! k = headers (res st) !! k).
    { unfold h1. rewrite lookup_insert_ne by done. by apply Hset. }
    unfold h2. destruct (truthy _); [done |]. by rewrite lookup_insert_ne. }
  assert (Hk4 : forall k, k ∉ body_headers ->
    k <> "content-type" /\ k <> "content-length" /\ k <> "etag" /\
    k <> "transfer-encoding").
  { intros k Hk. unfold body_headers in Hk. rewrite !not_elem_of_cons in Hk. tauto. }
  destruct (_ || _); [| destruct (_ =? 205)]; (split; [done |]); intros k Hk;
    cbn [res headers]; destruct (Hk4 k Hk) as (K1 & K2 & K3 & K4).
  - rewrite !lookup_delete_ne by done. by apply H2.
  - rewrite lookup_delete_ne, lookup_insert_ne by done. by apply H2.
  - by apply H2.
Qed.

End ExpressFacts.

(** ** The application *)
Section Pipeline.
Import ExpressFacts.
Variables (c : Collaborators) (env : gmap string string) (now : Z) (req : Request).

Lemma production_true : production env = true <-> env !! "NODE_ENV" = Some "production".
Proof. unfold production. apply bool_decide_eq_true. Qed.

Lemma production_false :
  production env = false <-> env !! "NODE_ENV" <> Some "production".
Proof. unfold production. apply bool_decide_eq_false. Qed.

Lemma method_not_options :
  method req <> "OPTIONS" -> String.eqb (method req) "OPTIONS" = false.
Proof. intros H. by apply String.eqb_neq. Qed.

(** A request other than a preflight comes out of the first layers with its
    CORS headers, logged when the environment is not production. *)
Lemma reaches_parsers :
  method req <> "OPTIONS" ->
  handle c env now req =
  dispatch (parsers ++ routes c) None now req (before_parsers c env req) (prelude env).
Proof.
  intros Hm. unfold handle, app, security, cors, logging, before_parsers, prelude.
  cbn [List.app]. rewrite !dispatch_use. cbn beta iota.
  cbn [cors_origin corsOptions]. rewrite (method_not_options Hm).
  destruct (production env); cbn [List.app]; [done |].
  unfold diagnostic. by rewrite dispatch_use.
Qed.

(** A preflight ends at the CORS layer. *)
Lemma answers_preflight :
  method req = "OPTIONS" ->
  handle c env now req = (preflight c env req, ["helmet"; "morgan"; "cors"]).
Proof.
  intros Hm. unfold handle, app, security, cors.
  cbn [List.app]. rewrite !dispatch_use. cbn beta iota.
  cbn [cors_origin corsOptions]. by rewrite Hm.
Qed.

Lemma parsers_accept_inv :
  parsers_accept req = true ->
  parser_verdict ApplicationJson (mb 10) req = None /\
  parser_verdict FormUrlencoded (mb 10) req = None.
Proof.
  unfold parsers_accept.
  by destruct (parser_verdict ApplicationJson _ _), (parser_verdict FormUrlencoded _ _).
Qed.

Lemma reaches_routes :
  method req <> "OPTIONS" -> parsers_accept req = true ->
  handle c env now req =
  dispatch (routes c) None now req (before_parsers c env req)
    (prelude env ++ ["express.json"; "express.urlencoded"]).
Proof.
  intros Hm [Hj Hu]%parsers_accept_inv. rewrite (reaches_parsers Hm).
  unfold parsers, body_parser. cbn [List.app].
  rewrite dispatch_use, Hj, dispatch_use, Hu. by rewrite <- app_assoc.
Qed.

Lemma before_parsers_status : statusCode (res (before_parsers c env req)) = 200.
Proof. unfold before_parsers. by destruct (production env). Qed.

Lemma before_parsers_console :
  console (before_parsers c env req) =
  if production env then [] else [diagnostic_line req].
Proof. unfold before_parsers. by destruct (production env). Qed.

Lemma before_parsers_headers :
  headers (res (before_parsers c env req)) =
  configureCredentials corsOptions
    (configureOrigin req (helmet c (helmetOptions env) (headers (res fresh)))).
Proof. unfold before_parsers. by destruct (production env). Qed.



(** Distinct route paths do not answer the same request. *)
Lemma targets_apart p q :
  lower p <> lower q -> lower p <> lower q ++ "/" -> lower p ++ "/" <> lower q ->
  targets p req = true -> targets q req = false.
Proof.
  unfold targets. intros H1 H2 H3 [H | H]%match_exact_cases;
    unfold match_exact; rewrite H; apply orb_false_iff; split;
    apply String.eqb_neq; try done.
  intros E. apply H1. clear -E.
  revert E. generalize (lower p), (lower q). intros a.
  induction a as [|x a IH]; intros [|y b] E; simpl in *; try done.
  - by destruct b.
  - by destruct a.
  - injection E as -> E. f_equal. by apply IH.
Qed.

(** *** The three inline endpoints *)

Ltac open_routes :=
  unfold routes, health, api_health, ping, mounted, not_found, error_layer,
    unrouted, targets in *.





(** *** What the layers after CORS leave alone *)

Lemma not_body_header k : k ∉ body_headers -> k <> "content-type".
Proof. unfold body_headers. rewrite !not_elem_of_cons. tauto. Qed.

Lemma finalhandler_same err r st : same_beyond_body st (finalhandler err r st).
Proof.
  unfold finalhandler. destruct err; (split; [done |]); intros k Hk%not_body_header;
    simpl; by rewrite lookup_insert_ne.
Qed.

Lemma late_layers_preserve (P : State -> Prop) :
  (forall st st', same_beyond_body st st' -> P st -> P st') ->
  Forall (preserves P) (parsers ++ routes c).
Proof.
  intros Hclosed.
  assert (Hjson : forall rt code o r st, same_beyond_body st (res_json rt code o r st)).
  { intros. unfold res_json.
    destruct (send_body_same rt "application/json; charset=utf-8" (Json o) r
                (status code st)) as [Hc Hh].
    by split. }
  assert (Hsend : forall rt t r st, same_beyond_body st (res_send rt t r st)).
  { intros. apply send_body_same. }
  assert (Hresp : forall code b r st, same_beyond_body st (respond code b r st)).
  { intros. by split. }
  assert (Hrefl : forall st, same_beyond_body st st) by (by split).
  unfold parsers, routes, body_parser, health, api_health, ping, mounted,
    not_found, error_layer. cbn [List.app].
  repeat apply Forall_cons_2; try apply Forall_nil_2;
    unfold preserves; cbn [handler]; intros; cbn [step_state];
    repeat match goal with
    | |- context [parser_verdict ?k ?l ?r] => destruct (parser_verdict k l r)
    | |- context [match ?m ?r with Respond _ _ => _ | _ => _ end] => destruct (m r)
    end; cbn [step_state]; eauto.
Qed.

Lemma dispatch_late (P : State -> Prop) err st tr :
  (forall st st', same_beyond_body st st' -> P st -> P st') ->
  P st -> P (dispatch (parsers ++ routes c) err now req st tr).1.
Proof.
  intros Hclosed HP. apply dispatch_invariant; [| by apply late_layers_preserve | done].
  intros err' req' st' HP'. refine (Hclosed _ _ _ HP'). apply finalhandler_same.
Qed.

Lemma vary_other field k (h : gmap string string) :
  k <> "vary" -> vary field h !! k = h !! k.
Proof.
  intros Hk. unfold vary. destruct (h !! "vary"); by rewrite lookup_insert_ne.
Qed.




Lemma not_listed (x : string) (l : list string) :
  forallb (fun y => negb (String.eqb x y)) l = true -> x ∉ l.
Proof.
  induction l as [|y l IH]; simpl; [intros _; apply not_elem_of_nil |].
  intros [Hy Hl]%andb_true_iff. apply not_elem_of_cons. split; [| by apply IH].
  apply negb_true_iff in Hy. by apply String.eqb_neq.
Qed.

Lemma app_labels :
  label <$> app c env =
  (["helmet"; "morgan"; "cors"] ++ (if production env then [] else ["diagnostic"]) ++
   ["express.json"; "express.urlencoded"; "GET /health"; "GET /api/health"; "GET /ping";
    "/api/auth"; "/api/products"; "/api/invoices"; "/api/shop"; "*"; "errorHandler"])%list.
Proof. unfold app, logging. by destruct (production env). Qed.








(** The catch-all handler's 404 is never taken for a fresh copy. *)
Lemma not_found_answer st :
  statusCode (res (res_json (runtime c) 404 (not_found_body req) req st)) = 404 /\
  body (res (res_json (runtime c) 404 (not_found_body req) req st))
    = send req (Json (not_found_body req)).
Proof. apply res_json_stale; [right |..]; lia. Qed.

(** C2, amended: apart from preflights, which the CORS layer answers, a
    request that the body parsers let through and whose path decodes and is
    neither an inline endpoint nor under a mount path is answered 404 by the
    catch-all handler; unless it is a HEAD request, which gets no body, the
    body is a JSON object with the error Route not found and a message
    quoting the request target, which opens with the path whenever the path
    is the one [parseurl] computes from it; the error handler does not
    run. *)
Theorem unrouted_request_404 :
  method req <> "OPTIONS" -> parsers_accept req = true ->
  decodable (path req) = true -> unrouted req = true ->
  statusCode (response c env now req) = 404 /\
  (method req <> "HEAD" ->
   exists o,
     body (response c env now req) = Json o /\
     get_property "error" o = Some "Route not found" /\
     get_property "message" o =
       Some ("The endpoint " ++ originalUrl req ++ " does not exist")) /\
  (parseurl (originalUrl req) = Some (path req) ->
   String.prefix (path req) (originalUrl req) = true) /\
  ran c env now req = (prelude env ++ ["express.json"; "express.urlencoded"; "*"])%list /\
  "errorHandler" ∉ ran c env now req.
Proof.
  intros Hm Hp Hd Hu.
  assert (E : handle c env now req =
    (res_json (runtime c) 404 (not_found_body req) req (before_parsers c env req),
     (prelude env ++ ["express.json"; "express.urlencoded"; "*"])%list)).
  { rewrite (reaches_routes Hm Hp). open_routes.
    repeat (apply andb_true_iff in Hu as [Hu ?]).
    repeat match goal with H : negb _ = true |- _ => apply negb_true_iff in H end.
    repeat (rewrite dispatch_route;
            match goal with H : match_exact _ _ = false |- _ => rewrite H; clear H end;
            cbn [andb]).
    repeat (rewrite dispatch_mount;
            match goal with H : match_prefix _ _ = false |- _ => rewrite H; clear H end).
    rewrite dispatch_star, Hd. by rewrite <- app_assoc. }
  unfold response, ran. rewrite E. cbn [fst snd].
  destruct (not_found_answer (before_parsers c env req)) as [E1 E2]. rewrite E1, E2.
  repeat split.
  - intros Hh. exists (not_found_body req). unfold send.
    apply String.eqb_neq in Hh. by rewrite Hh.
  - apply parseurl_prefix.
  - apply not_listed. unfold prelude. by destruct (production env).
Qed.

Lemma verdict_too_large kind p :
  payload req = Some p -> media p = kind -> supported p = true ->
  (10485760 < size p)%N ->
  parser_verdict kind (mb 10) req = Some payload_too_large.
Proof.
  intros Hpay Hk Hsup Hsize%N.ltb_lt. unfold parser_verdict, supported in *.
  rewrite Hpay, Hk. destruct (refusal p); [done |].
  change (mb 10) with 10485760%N. rewrite Hsize. by destruct kind.
Qed.

Lemma verdict_other_media kind limit p :
  payload req = Some p -> media_eqb (media p) kind = false ->
  parser_verdict kind limit req = None.
Proof. intros Hpay Hk. unfold parser_verdict. by rewrite Hpay, Hk. Qed.

(** C6, amended: apart from preflights, a request whose body is JSON or
    URL-encoded, in a charset and encoding the parser takes, and longer than
    10485760 bytes is refused by its parser with the 413 payload-too-large
    error; the terminal error handler answers it, and no route module and no
    404 handler runs. *)
Theorem oversized_body_rejected p :
  method req <> "OPTIONS" -> payload req = Some p ->
  media p = ApplicationJson \/ media p = FormUrlencoded ->
  supported p = true -> (10485760 < size p)%N ->
  handler <$> parsers =
    [body_parser ApplicationJson 10485760; body_parser FormUrlencoded 10485760] /\
  err_status payload_too_large = 413 /\
  statusCode (response c env now req) = (errorHandler c payload_too_large req).1 /\
  body (response c env now req) = send req (errorHandler c payload_too_large req).2 /\
  (ran c env now req = (prelude env ++ ["express.json"; "errorHandler"])%list \/
   ran c env now req =
     (prelude env ++ ["express.json"; "express.urlencoded"; "errorHandler"])%list) /\
  forall m, m ∈ route_modules -> m ∉ ran c env now req.
Proof.
  intros Hm Hpay Hmedia Hsup Hsize.
  assert (E : exists tr,
    handle c env now req =
      (respond (errorHandler c payload_too_large req).1
               (errorHandler c payload_too_large req).2 req (before_parsers c env req),
       (prelude env ++ tr)%list) /\
    (tr = ["express.json"; "errorHandler"] \/
     tr = ["express.json"; "express.urlencoded"; "errorHandler"])).
  { rewrite (reaches_parsers Hm). unfold parsers, body_parser. cbn [List.app].
    destruct Hmedia as [Hk | Hk].
    - exists ["express.json"; "errorHandler"]. split; [| by left].
      rewrite dispatch_use, (verdict_too_large _ _ Hpay Hk Hsup Hsize).
      rewrite dispatch_use_pending. open_routes.
      rewrite !dispatch_route_pending, !dispatch_mount_pending, dispatch_star_pending,
        dispatch_on_error.
      by rewrite <- !app_assoc.
    - exists ["express.json"; "express.urlencoded"; "errorHandler"]. split; [| by right].
      rewrite dispatch_use, (verdict_other_media ApplicationJson _ _ Hpay)
        by (by rewrite Hk).
      rewrite dispatch_use, (verdict_too_large _ _ Hpay Hk Hsup Hsize). open_routes.
      rewrite !dispatch_route_pending, !dispatch_mount_pending, dispatch_star_pending,
        dispatch_on_error.
      by rewrite <- !app_assoc. }
  destruct E as (tr & E & Htr). unfold response, ran. rewrite E.
  cbn [fst snd res body statusCode respond].
  repeat split.
  - destruct Htr as [-> | ->]; auto.
  - intros m Hin. apply not_listed. unfold route_modules in Hin.
    unfold prelude.
    repeat (apply elem_of_cons in Hin as [-> | Hin];
            [by destruct (production env), Htr as [-> | ->] |]).
    by apply elem_of_nil in Hin.
Qed.

(** C9, amended: the diagnostic logger is registered exactly when NODE_ENV
    is not production; in production no request makes [console.log] print;
    out of production every request except a preflight, which the CORS
    layer answers first, has exactly its line printed: method, request
    target and origin. *)
Theorem diagnostic_logger_gate :
  ("diagnostic" ∈ label <$> app c env <-> env !! "NODE_ENV" <> Some "production") /\
  (env !! "NODE_ENV" = Some "production" -> printed c env now req = []) /\
  (env !! "NODE_ENV" <> Some "production" -> method req <> "OPTIONS" ->
   printed c env now req =
     ["[REQ] " ++ method req ++ " " ++ originalUrl req ++ " - Origin: " ++
      default "undefined" (origin req)]).
Proof.
  assert (Hconsole : method req <> "OPTIONS" ->
    printed c env now req = if production env then [] else [diagnostic_line req]).
  { intros Hm. unfold printed. rewrite (reaches_parsers Hm).
    apply (dispatch_late (fun st => console st = _)).
    - intros st st' [Hc _] Hst. by rewrite Hc.
    - apply before_parsers_console. }
  split; [| split].
  - rewrite app_labels. destruct (production env) eqn:E.
    + apply production_true in E. split; [| done].
      intros Hin. exfalso. revert Hin. by apply not_listed.
    + apply production_false in E. split; [done |].
      intros _. cbn [List.app]. rewrite !elem_of_cons. auto.
  - intros E%production_true. destruct (decide (method req = "OPTIONS")) as [Hm | Hm].
    + unfold printed. by rewrite (answers_preflight Hm).
    + by rewrite (Hconsole Hm), E.
  - intros E%production_false Hm. by rewrite (Hconsole Hm), E.
Qed.

End Pipeline.

(** ** Startup configuration *)

(** C4, amended: in production [helmet] is given a content security policy
    whose default, script and connect sources are 'self' alone, whose style
    sources are 'self' and 'unsafe-inline', whose image sources are 'self',
    data: and https:, and the cross-origin embedder policy is switched
    off. *)
Theorem helmet_production_policy (env : gmap string string) :
  env !! "NODE_ENV" = Some "production" ->
  exists d,
    contentSecurityPolicy (helmetOptions env) = Some d /\
    defaultSrc d = ["'self'"] /\
    scriptSrc d = ["'self'"] /\
    connectSrc d = ["'self'"] /\
    styleSrc d = ["'self'"; "'unsafe-inline'"] /\
    imgSrc d = ["'self'"; "data:"; "https:"] /\
    crossOriginEmbedderPolicy (helmetOptions env) = Some false.
Proof.
  intros H%production_true. unfold helmetOptions. rewrite H.
  eexists. repeat split.
Qed.

Lemma decimal_digits_pad w v acc :
  0 <= v < 10 ^ Z.of_nat w ->
  decimal_digits acc (JsDate.pad w v) = Some (acc * 10 ^ Z.of_nat w + v).
Proof.
  revert v acc. induction w as [|w IH]; intros v acc Hv.
  - simpl in *. f_equal. lia.
  - rewrite Nat2Z.inj_succ, Z.pow_succ_r in * by lia.
    assert (Hp : 0 < 10 ^ Z.of_nat w) by (apply Z.pow_pos_nonneg; lia).
    cbn [JsDate.pad decimal_digits].
    rewrite JsDateFacts.digit_value_digit.
    2:{ split; [apply Z.div_pos; lia | apply Z.lt_succ_r, Z.div_lt_upper_bound; lia]. }
    rewrite IH by (apply Z.mod_pos_bound; lia).
    f_equal. pose proof (Z.div_mod v (10 ^ Z.of_nat w)). nia.
Qed.

(** A numeral on at least one digit is read as the number it writes. *)
Lemma decimal_value_pad w v :
  (0 < w)%nat -> 0 <= v < 10 ^ Z.of_nat w ->
  JsDate.pad w v <> "" /\ decimal_value (JsDate.pad w v) = Some v.
Proof.
  intros Hw Hv. pose proof (decimal_digits_pad w v 0 Hv) as E.
  destruct w as [|w]; [lia |]. split; [done |].
  unfold decimal_value. cbn [JsDate.pad] in *. by rewrite E.
Qed.

(** C8, amended: with PORT unset, or empty, the server listens on 5000;
    with PORT set to a decimal numeral of an integer from 1 to 65535
    (leading zeros allowed) it listens on that integer; with PORT set to a
    numeral of zero the port is left to the operating system to pick. *)
Theorem port_from_environment (env : gmap string string) (w : nat) (n : Z) :
  (env !! "PORT" = None ->
   PORT env = PortNumber 5000 /\ listen_port (PORT env) = OnPort 5000) /\
  (env !! "PORT" = Some "" -> listen_port (PORT env) = OnPort 5000) /\
  (env !! "PORT" = Some (JsDate.pad w n) -> 1 <= n <= 65535 -> n < 10 ^ Z.of_nat w ->
   PORT env = PortString (JsDate.pad w n) /\ listen_port (PORT env) = OnPort n) /\
  (env !! "PORT" = Some (JsDate.pad w 0) -> (0 < w)%nat ->
   listen_port (PORT env) = OnAnyPort).
Proof.
  unfold PORT. split; [| split; [| split]].
  - by intros ->.
  - by intros ->.
  - intros -> Hn Hw.
    assert (Hpos : (0 < w)%nat) by (destruct w; [simpl in Hw; lia | lia]).
    destruct (decimal_value_pad w n Hpos) as [Hne Hval]; [lia |].
    apply String.eqb_neq in Hne. rewrite Hne. split; [done |].
    cbn [listen_port]. rewrite Hval. unfold bind_port.
    replace (n =? 0) with false by (symmetry; apply Z.eqb_neq; lia).
    replace (1 <=? n) with true by (symmetry; apply Z.leb_le; lia).
    by replace (n <=? 65535) with true by (symmetry; apply Z.leb_le; lia).
  - intros -> Hpos.
    assert (Hp : 0 < 10 ^ Z.of_nat w) by (apply Z.pow_pos_nonneg; lia).
    destruct (decimal_value_pad w 0 Hpos) as [Hne Hval]; [lia |].
    apply String.eqb_neq in Hne. rewrite Hne. cbn [listen_port]. by rewrite Hval.
Qed.

(** ** The two health endpoints side by side *)




(** ** The statements at concrete requests *)

(** The paths of the requests below are the ones [parseurl] computes from
    their targets. *)
Lemma sample_paths :
  Forall (fun r => parseurl (originalUrl r) = Some (path r))
    [Sample.get_health; Sample.get_api_health; Sample.get_ping; Sample.get_ping_query;
     Sample.get_unknown; Sample.options_unknown; Sample.post_health;
     Sample.delete_item; Sample.big_json; Sample.big_text;
     Probe.post_product; Probe.get_item; Probe.head_ping; Probe.get_broken;
     Probe.get_health_fragment; Probe.post_auth_fragment; Probe.get_fragment_percent].
Proof. repeat constructor. Qed.

(** A fragment in the target is no part of the path: /health#frag is served
    by the /health route, and /x#%, whose path /x decodes, gets the 404. *)
Lemma fragment_dropped :
  path Probe.get_health_fragment = "/health" /\
  statusCode (response Sample.collaborators Sample.development Sample.clock
                Probe.get_health_fragment) = 200 /\
  ran Sample.collaborators Sample.development Sample.clock Probe.get_health_fragment =
    ["helmet"; "morgan"; "cors"; "diagnostic"; "express.json"; "express.urlencoded";
     "GET /health"] /\
  path Probe.get_fragment_percent = "/x" /\
  statusCode (response Sample.collaborators Sample.development Sample.clock
                Probe.get_fragment_percent) = 404 /\
  ran Sample.collaborators Sample.development Sample.clock Probe.get_fragment_percent =
    ["helmet"; "morgan"; "cors"; "diagnostic"; "express.json"; "express.urlencoded"; "*"].
Proof. vm_compute. repeat split. Qed.









(** A preflight to a path nobody serves is answered 200 by the CORS layer,
    with no body; the 404 handler is not reached. *)
Lemma options_unrouted_is_preflight :
  unrouted Sample.options_unknown = true /\
  parsers_accept Sample.options_unknown = true /\
  decodable (path Sample.options_unknown) = true /\
  statusCode (response Sample.collaborators Sample.development Sample.clock
                Sample.options_unknown) = 200 /\
  body (response Sample.collaborators Sample.development Sample.clock
          Sample.options_unknown) = NoBody /\
  ran Sample.collaborators Sample.development Sample.clock Sample.options_unknown =
    ["helmet"; "morgan"; "cors"].
Proof. vm_compute. repeat split. Qed.

Lemma unrouted_request_404_witness :
  method Sample.get_unknown <> "OPTIONS" /\
  parsers_accept Sample.get_unknown = true /\
  decodable (path Sample.get_unknown) = true /\
  unrouted Sample.get_unknown = true /\
  parseurl "/no-such-route?x=1" = Some (path Sample.get_unknown) /\
  statusCode (response Sample.collaborators Sample.live Sample.clock
                Sample.get_unknown) = 404 /\
  (exists o,
     body (response Sample.collaborators Sample.live Sample.clock
             Sample.get_unknown) = Json o /\
     get_property "error" o = Some "Route not found" /\
     get_property "message" o =
       Some "The endpoint /no-such-route?x=1 does not exist") /\
  String.prefix "/no-such-route" "/no-such-route?x=1" = true /\
  ran Sample.collaborators Sample.live Sample.clock Sample.get_unknown =
    ["helmet"; "morgan"; "cors"; "express.json"; "express.urlencoded"; "*"] /\
  "errorHandler" ∉ ran Sample.collaborators Sample.live Sample.clock Sample.get_unknown.
Proof.
  assert (H1 : method Sample.get_unknown <> "OPTIONS") by discriminate.
  assert (H2 : method Sample.get_unknown <> "HEAD") by discriminate.
  assert (H3 : parsers_accept Sample.get_unknown = true) by reflexivity.
  assert (H4 : decodable (path Sample.get_unknown) = true) by reflexivity.
  assert (H5 : unrouted Sample.get_unknown = true) by reflexivity.
  assert (H6 : parseurl (originalUrl Sample.get_unknown) = Some (path Sample.get_unknown))
    by reflexivity.
  destruct (unrouted_request_404 Sample.collaborators Sample.live Sample.clock
              Sample.get_unknown H1 H3 H4 H5) as (Hs & Hb & Hp & Hr & He).
  exact (conj H1 (conj H3 (conj H4 (conj H5 (conj H6
    (conj Hs (conj (Hb H2) (conj (Hp H6) (conj Hr He))))))))).
Defined.


(** In production the style sources are not 'self' alone. *)
Lemma production_style_allows_inline :
  Sample.live !! "NODE_ENV" = Some "production" /\
  styleSrc <$> contentSecurityPolicy (helmetOptions Sample.live)
    = Some ["'self'"; "'unsafe-inline'"] /\
  styleSrc <$> contentSecurityPolicy (helmetOptions Sample.live) <> Some ["'self'"].
Proof. vm_compute. repeat split. discriminate. Qed.

Lemma helmet_production_policy_witness :
  Sample.live !! "NODE_ENV" = Some "production" /\
  exists d,
    contentSecurityPolicy (helmetOptions Sample.live) = Some d /\
    defaultSrc d = ["'self'"] /\
    scriptSrc d = ["'self'"] /\
    connectSrc d = ["'self'"] /\
    styleSrc d = ["'self'"; "'unsafe-inline'"] /\
    imgSrc d = ["'self'"; "data:"; "https:"] /\
    crossOriginEmbedderPolicy (helmetOptions Sample.live) = Some false.
Proof.
  assert (H : Sample.live !! "NODE_ENV" = Some "production") by reflexivity.
  exact (conj H (helmet_production_policy Sample.live H)).
Defined.

(** An 11 MB text/plain body is no business of either parser: the request
    reaches the auth route module and no error is raised. *)
Lemma oversized_plain_text_reaches_route :
  method Sample.big_text <> "OPTIONS" /\
  (size <$> payload Sample.big_text) = Some 11534336%N /\
  ran Sample.collaborators Sample.development Sample.clock Sample.big_text =
    ["helmet"; "morgan"; "cors"; "diagnostic"; "express.json"; "express.urlencoded";
     "/api/auth"] /\
  statusCode (response Sample.collaborators Sample.development Sample.clock
                Sample.big_text) = 201.
Proof. vm_compute. repeat split. discriminate. Qed.

Lemma oversized_body_rejected_witness :
  method Sample.big_json <> "OPTIONS" /\
  (size <$> payload Sample.big_json) = Some 10485761%N /\
  statusCode (response Sample.collaborators Sample.development Sample.clock
                Sample.big_json) = 413 /\
  ran Sample.collaborators Sample.development Sample.clock Sample.big_json =
    ["helmet"; "morgan"; "cors"; "diagnostic"; "express.json"; "errorHandler"] /\
  forall m, m ∈ route_modules ->
    m ∉ ran Sample.collaborators Sample.development Sample.clock Sample.big_json.
Proof.
  assert (H1 : method Sample.big_json <> "OPTIONS") by discriminate.
  pose proof (oversized_body_rejected Sample.collaborators Sample.development
                Sample.clock Sample.big_json
                {| media := ApplicationJson; refusal := None; size := 10485761;
                   flaw := None |}
                H1 eq_refl (or_introl eq_refl) eq_refl eq_refl)
    as (_ & _ & Hs & _ & _ & Hm).
  exact (conj H1 (conj eq_refl (conj Hs (conj eq_refl Hm)))).
Defined.

Lemma port_from_environment_witness :
  Sample.live !! "PORT" = Some "8080" /\
  listen_port (PORT Sample.development) = OnPort 5000 /\
  listen_port (PORT Sample.live) = OnPort 8080 /\
  listen_port (PORT (<["PORT" := "00443"]> Sample.live)) = OnPort 443.
Proof.
  refine (conj eq_refl (conj _ (conj _ _))).
  - exact (proj2 (proj1 (port_from_environment Sample.development 0 0) eq_refl)).
  - refine (proj2 (proj1 (proj2 (proj2 (port_from_environment Sample.live 4 8080)))
                     eq_refl _ _)); [lia | reflexivity].
  - refine (proj2 (proj1 (proj2 (proj2
              (port_from_environment (<["PORT" := "00443"]> Sample.live) 5 443)))
                     eq_refl _ _)); [lia | reflexivity].
Defined.

(** With PORT=0 the server does not listen on a port read off PORT: the
    operating system picks one. *)
Lemma port_zero_is_any_port :
  <["PORT" := "0"]> Sample.development !! "PORT" = Some "0" /\
  PORT (<["PORT" := "0"]> Sample.development) = PortString "0" /\
  listen_port (PORT (<["PORT" := "0"]> Sample.development)) = OnAnyPort.
Proof. vm_compute. repeat split. Qed.

(** Out of production, a preflight prints nothing: it never reaches the
    logger. *)
Lemma preflight_not_logged :
  Sample.development !! "NODE_ENV" = None /\
  "diagnostic" ∈ label <$> app Sample.collaborators Sample.development /\
  printed Sample.collaborators Sample.development Sample.clock Sample.options_unknown
    = [] /\
  ran Sample.collaborators Sample.development Sample.clock Sample.options_unknown =
    ["helmet"; "morgan"; "cors"].
Proof.
  split; [reflexivity |]. split; [| by vm_compute].
  rewrite app_labels. change (production Sample.development) with false.
  cbn [List.app]. rewrite !elem_of_cons. auto 10.
Qed.

Lemma diagnostic_logger_gate_witness :
  printed Sample.collaborators Sample.live Sample.clock Sample.get_ping = [] /\
  printed Sample.collaborators Sample.development Sample.clock Sample.get_ping =
    ["[REQ] GET /ping - Origin: undefined"].
Proof.
  pose proof (diagnostic_logger_gate Sample.collaborators Sample.live Sample.clock
                Sample.get_ping) as (_ & Hp & _).
  pose proof (diagnostic_logger_gate Sample.collaborators Sample.development
                Sample.clock Sample.get_ping) as (_ & _ & Hd).
  split.
  - apply Hp. reflexivity.
  - apply Hd; discriminate.
Defined.

(** * Further facts *)

(** ** What [res.json] writes can be read back *)
Module JSONFacts.
Import Express JSON.

Lemma append_assoc (a b d : string) : (a ++ b) ++ d = a ++ b ++ d.
Proof. induction a as [|x a IH]; simpl; [done | by rewrite IH]. Qed.

Lemma length_append (a b : string) :
  String.length (a ++ b) = (String.length a + String.length b)%nat.
Proof. induction a as [|x a IH]; simpl; [done | by rewrite IH]. Qed.

(** Reading undoes the escaping of one character, whichever it is. *)
Lemma read_string_quote_char c t :
  read_string (quote_char c ++ t) =
  '(v, rest) ← read_string t; Some (String c v, rest).
Proof. destruct c as [[] [] [] [] [] [] [] []]; reflexivity. Qed.

Lemma read_string_quote_chars s rest :
  read_string (quote_chars s ++ dquote ++ rest) = Some (s, rest).
Proof.
  induction s as [|c s IH]; [done |].
  cbn [quote_chars]. rewrite append_assoc, read_string_quote_char, IH. done.
Qed.

Lemma expect_dquote r : JsDate.expect dq (dquote ++ r) = Some r.
Proof. reflexivity. Qed.

Lemma read_member_quote k v rest :
  read_member (quote k ++ ":" ++ quote v ++ rest) = Some ((k, v), rest).
Proof.
  unfold read_member, quote. rewrite !append_assoc.
  rewrite expect_dquote. cbn [mbind option_bind].
  rewrite read_string_quote_chars. cbn [mbind option_bind].
  change (JsDate.expect ":" (":" ++ dquote ++ quote_chars v ++ dquote ++ rest))
    with (Some (dquote ++ quote_chars v ++ dquote ++ rest)).
  cbn [mbind option_bind]. rewrite expect_dquote. cbn [mbind option_bind].
  by rewrite read_string_quote_chars.
Qed.

Lemma read_members_members o fuel :
  o <> [] -> (List.length o <= fuel)%nat ->
  read_members fuel (members o ++ "}") = Some o.
Proof.
  revert fuel. induction o as [|[k v] o IH]; intros fuel Hne Hfuel; [done |].
  destruct fuel as [|fuel]; [simpl in Hfuel; lia |].
  destruct o as [|kv o].
  - cbn [members read_members]. rewrite !append_assoc, read_member_quote. done.
  - change (members ((k, v) :: kv :: o))
      with (quote k ++ ":" ++ quote v ++ "," ++ members (kv :: o)).
    cbn [read_members]. rewrite !append_assoc, read_member_quote.
    cbn [mbind option_bind String.append].
    rewrite IH; [done | done | simpl in *; lia].
Qed.

Lemma members_length o : (List.length o <= String.length (members o))%nat.
Proof.
  induction o as [|[k v] o IH]; [done |].
  destruct o as [|kv o].
  - cbn [members]. unfold quote. rewrite !length_append. simpl. lia.
  - change (members ((k, v) :: kv :: o))
      with (quote k ++ ":" ++ quote v ++ "," ++ members (kv :: o)).
    unfold quote at 1. rewrite !length_append. simpl in *. lia.
Qed.

(** The object given to [res.json] is the one a client reads from the body,
    whatever characters its strings hold. *)
Theorem parse_stringify o : parse (JSON_stringify o) = Some o.
Proof.
  unfold JSON_stringify. cbn [String.append parse].
  destruct o as [|[k v] o]; [done |].
  assert (E : String.eqb (members ((k, v) :: o) ++ "}") "}" = false).
  { destruct o as [|kv o]; reflexivity. }
  rewrite E. apply read_members_members; [done |].
  rewrite length_append. pose proof (members_length ((k, v) :: o)). lia.
Qed.

End JSONFacts.

(** ** Routing beyond the claims *)
Section Routing.
Import ExpressFacts.
Variables (c : Collaborators) (env : gmap string string) (now : Z) (req : Request).

Lemma strip_prefix_app p s rest : strip_prefix p s = Some rest -> s = p ++ rest.
Proof.
  revert s. induction p as [|a p IH]; intros s; simpl; [by intros [= ->] |].
  destruct s as [|b s]; [done |].
  destruct (Ascii.eqb a b) eqn:E; [| done].
  apply Ascii.eqb_eq in E as ->. intros H. by rewrite (IH _ H).
Qed.

(** Under a mount path, the path is the mount path itself or goes on with a
    slash. *)
Lemma match_prefix_cases p s :
  match_prefix p s = true ->
  exists rest, lower s = lower p ++ rest /\
               (rest = "" \/ exists r, rest = String "/" r).
Proof.
  unfold match_prefix. destruct (strip_prefix (lower p) (lower s)) as [rest|] eqn:E;
    [| done].
  apply strip_prefix_app in E. intros H. exists rest. split; [done |].
  destruct rest as [|x r]; [by left | right].
  apply Ascii.eqb_eq in H as ->. by exists r.
Qed.

Lemma lower_ascii_percent x : lower_ascii x = "%"%char -> x = "%"%char.
Proof. destruct x as [[] [] [] [] [] [] [] []]; by vm_compute. Qed.

(** A path whose lower-case spelling has no percent sign decodes. *)
Lemma decodable_plain s : free_of "%" (lower s) = true -> decodable s = true.
Proof.
  unfold decodable. induction s as [|x s IH]; [done |]. cbn [lower free_of decode_ok].
  intros [Hx Hs]%andb_true_iff. apply negb_true_iff in Hx.
  destruct (Ascii.eqb x "%") eqn:E; [| by apply IH].
  apply Ascii.eqb_eq in E as ->. done.
Qed.

Ltac known_path H :=
  unfold targets, match_exact, match_prefix; rewrite H; reflexivity.

(** *** Lines 85-88: what becomes of a request under a mount path *)

Lemma mount_outcome p r :
  (p, r) ∈ mounts c -> method req <> "OPTIONS" -> parsers_accept req = true ->
  match_prefix p (path req) = true ->
  handle c env now req =
  match r req with
  | Respond code b =>
    (respond code b req (before_parsers c env req),
     (prelude env ++ ["express.json"; "express.urlencoded"; p])%list)
  | PassOn =>
    if decodable (path req) then
      (res_json (runtime c) 404 (not_found_body req) req (before_parsers c env req),
       (prelude env ++ ["express.json"; "express.urlencoded"; p; "*"])%list)
    else
      (respond (errorHandler c (decode_error (path req)) req).1
               (errorHandler c (decode_error (path req)) req).2 req
               (before_parsers c env req),
       (prelude env ++ ["express.json"; "express.urlencoded"; p; "errorHandler"])%list)
  | Fail e =>
    (respond (errorHandler c e req).1 (errorHandler c e req).2 req
             (before_parsers c env req),
     (prelude env ++ ["express.json"; "express.urlencoded"; p; "errorHandler"])%list)
  end.
Proof.
  intros Hin Hm Hp Hmatch. rewrite (reaches_routes c env now req Hm Hp).
  pose proof (match_prefix_cases _ _ Hmatch) as (rest & Hlow & _).
  unfold mounts in Hin. rewrite !elem_of_cons, elem_of_nil in Hin.
  assert (H1 : targets "/health" req = false)
    by (destruct Hin as [[= -> ->] | [[= -> ->] | [[= -> ->] | [[= -> ->] | []]]]];
        known_path Hlow).
  assert (H2 : targets "/api/health" req = false)
    by (destruct Hin as [[= -> ->] | [[= -> ->] | [[= -> ->] | [[= -> ->] | []]]]];
        known_path Hlow).
  assert (H3 : targets "/ping" req = false)
    by (destruct Hin as [[= -> ->] | [[= -> ->] | [[= -> ->] | [[= -> ->] | []]]]];
        known_path Hlow).
  unfold routes, health, api_health, ping, mounted, not_found, error_layer,
    targets in *.
  rewrite dispatch_route, H1. cbn [andb].
  rewrite dispatch_route, H2. cbn [andb].
  rewrite dispatch_route, H3. cbn [andb].
  destruct Hin as [[= -> ->] | [[= -> ->] | [[= -> ->] | [[= -> ->] | []]]]].
  - rewrite dispatch_mount, Hmatch.
    assert (M2 : match_prefix "/api/products" (path req) = false)
      by known_path Hlow.
    assert (M3 : match_prefix "/api/invoices" (path req) = false)
      by known_path Hlow.
    assert (M4 : match_prefix "/api/shop" (path req) = false)
      by known_path Hlow.
    destruct (authRoutes c req).
    + by rewrite <- app_assoc.
    + rewrite dispatch_mount, M2, dispatch_mount, M3, dispatch_mount, M4, dispatch_star.
      destruct (decodable _); [by rewrite <- !app_assoc |].
      rewrite dispatch_on_error. by rewrite <- !app_assoc.
    + rewrite !dispatch_mount_pending, dispatch_star_pending, dispatch_on_error.
      by rewrite <- !app_assoc.
  - assert (M1 : match_prefix "/api/auth" (path req) = false)
      by known_path Hlow.
    assert (M3 : match_prefix "/api/invoices" (path req) = false)
      by known_path Hlow.
    assert (M4 : match_prefix "/api/shop" (path req) = false)
      by known_path Hlow.
    rewrite dispatch_mount, M1, dispatch_mount, Hmatch.
    destruct (productRoutes c req).
    + by rewrite <- app_assoc.
    + rewrite dispatch_mount, M3, dispatch_mount, M4, dispatch_star.
      destruct (decodable _); [by rewrite <- !app_assoc |].
      rewrite dispatch_on_error. by rewrite <- !app_assoc.
    + rewrite !dispatch_mount_pending, dispatch_star_pending, dispatch_on_error.
      by rewrite <- !app_assoc.
  - assert (M1 : match_prefix "/api/auth" (path req) = false)
      by known_path Hlow.
    assert (M2 : match_prefix "/api/products" (path req) = false)
      by known_path Hlow.
    assert (M4 : match_prefix "/api/shop" (path req) = false)
      by known_path Hlow.
    rewrite dispatch_mount, M1, dispatch_mount, M2, dispatch_mount, Hmatch.
    destruct (invoiceRoutes c req).
    + by rewrite <- app_assoc.
    + rewrite dispatch_mount, M4, dispatch_star.
      destruct (decodable _); [by rewrite <- !app_assoc |].
      rewrite dispatch_on_error. by rewrite <- !app_assoc.
    + rewrite !dispatch_mount_pending, dispatch_star_pending, dispatch_on_error.
      by rewrite <- !app_assoc.
  - assert (M1 : match_prefix "/api/auth" (path req) = false)
      by known_path Hlow.
    assert (M2 : match_prefix "/api/products" (path req) = false)
      by known_path Hlow.
    assert (M3 : match_prefix "/api/invoices" (path req) = false)
      by known_path Hlow.
    rewrite dispatch_mount, M1, dispatch_mount, M2, dispatch_mount, M3,
      dispatch_mount, Hmatch.
    destruct (shopRoutes c req).
    + by rewrite <- app_assoc.
    + rewrite dispatch_star.
      destruct (decodable _); [by rewrite <- !app_assoc |].
      rewrite dispatch_on_error. by rewrite <- !app_assoc.
    + rewrite dispatch_star_pending, dispatch_on_error.
      by rewrite <- !app_assoc.
Qed.


(** X1: when the route module mounted over the path answers, the response
    is its status and body (no body for HEAD), and of the routes only that
    module ran. *)
Theorem mounted_module_answers p r code b :
  (p, r) ∈ mounts c -> method req <> "OPTIONS" -> parsers_accept req = true ->
  match_prefix p (path req) = true -> r req = Respond code b ->
  statusCode (response c env now req) = code /\
  body (response c env now req) = send req b /\
  ran c env now req = (prelude env ++ ["express.json"; "express.urlencoded"; p])%list.
Proof.
  intros Hin Hm Hp Hmatch Hr. unfold response, ran.
  rewrite (mount_outcome p r Hin Hm Hp Hmatch), Hr. done.
Qed.

(** X2: when the route module passes the request on (none of its own routes
    matched), the request falls through to the catch-all handler and gets
    the 404, provided its path decodes. *)
Theorem mounted_module_passes_on p r :
  (p, r) ∈ mounts c -> method req <> "OPTIONS" -> parsers_accept req = true ->
  match_prefix p (path req) = true -> decodable (path req) = true ->
  r req = PassOn ->
  statusCode (response c env now req) = 404 /\
  body (response c env now req) = send req (Json (not_found_body req)) /\
  ran c env now req =
    (prelude env ++ ["express.json"; "express.urlencoded"; p; "*"])%list.
Proof.
  intros Hin Hm Hp Hmatch Hd Hr. unfold response, ran.
  rewrite (mount_outcome p r Hin Hm Hp Hmatch), Hr, Hd. cbn [fst snd].
  destruct (not_found_answer c req (before_parsers c env req)) as [E1 E2].
  by rewrite E1, E2.
Qed.

(** X3: when the route module forwards an error, the terminal error
    handler answers with what it makes of that very error; the later route
    modules and the 404 handler are passed over. *)
Theorem mounted_module_error p r e :
  (p, r) ∈ mounts c -> method req <> "OPTIONS" -> parsers_accept req = true ->
  match_prefix p (path req) = true -> r req = Fail e ->
  statusCode (response c env now req) = (errorHandler c e req).1 /\
  body (response c env now req) = send req (errorHandler c e req).2 /\
  ran c env now req =
    (prelude env ++ ["express.json"; "express.urlencoded"; p; "errorHandler"])%list.
Proof.
  intros Hin Hm Hp Hmatch Hr. unfold response, ran.
  rewrite (mount_outcome p r Hin Hm Hp Hmatch), Hr. done.
Qed.

(** *** Lines 65-82: the inline endpoints and the verb *)

Lemma inline_path_known p :
  p ∈ inline_paths -> targets p req = true ->
  exists s, lower (path req) = s /\
    (s = "/health" \/ s = "/health/" \/ s = "/api/health" \/ s = "/api/health/" \/
     s = "/ping" \/ s = "/ping/").
Proof.
  unfold inline_paths, targets. rewrite !elem_of_cons, elem_of_nil.
  intros Hin [H | H]%match_exact_cases; eexists; (split; [exact H |]);
    destruct Hin as [-> | [-> | [-> | []]]]; cbn; tauto.
Qed.

Lemma inline_path_plain p :
  p ∈ inline_paths -> targets p req = true ->
  match_prefix "/api/auth" (path req) = false /\
  match_prefix "/api/products" (path req) = false /\
  match_prefix "/api/invoices" (path req) = false /\
  match_prefix "/api/shop" (path req) = false /\
  decodable (path req) = true.
Proof.
  intros Hin Ht. destruct (inline_path_known p Hin Ht) as (s & Hs & Hcases).
  repeat split;
    try (unfold match_prefix; rewrite Hs;
         destruct Hcases as [-> | [-> | [-> | [-> | [-> | ->]]]]]; reflexivity).
  apply decodable_plain. rewrite Hs.
  destruct Hcases as [-> | [-> | [-> | [-> | [-> | ->]]]]]; reflexivity.
Qed.

(** X4: the inline endpoints are GET routes: a request to one of them with
    another verb (HEAD and OPTIONS apart) is not served by it and gets the
    404 of the catch-all handler. *)
Theorem inline_endpoint_other_verb p :
  p ∈ inline_paths -> targets p req = true ->
  method req <> "GET" -> method req <> "HEAD" -> method req <> "OPTIONS" ->
  parsers_accept req = true ->
  statusCode (response c env now req) = 404 /\
  body (response c env now req) = Json (not_found_body req) /\
  ran c env now req = (prelude env ++ ["express.json"; "express.urlencoded"; "*"])%list.
Proof.
  intros Hin Ht Hg Hh Ho Hp.
  destruct (inline_path_plain p Hin Ht) as (M1 & M2 & M3 & M4 & Hd).
  assert (Hv : handles_method "GET" (method req) = false).
  { unfold handles_method. apply String.eqb_neq in Hg, Hh. by rewrite Hg, Hh. }
  unfold response, ran. rewrite (reaches_routes c env now req Ho Hp).
  unfold routes, health, api_health, ping, mounted, not_found, error_layer.
  rewrite dispatch_route, Hv, andb_false_r.
  rewrite dispatch_route, Hv, andb_false_r.
  rewrite dispatch_route, Hv, andb_false_r.
  rewrite dispatch_mount, M1, dispatch_mount, M2, dispatch_mount, M3, dispatch_mount, M4.
  rewrite dispatch_star, Hd. cbn [fst snd].
  destruct (not_found_answer c req (before_parsers c env req)) as [E1 E2].
  rewrite E1, E2.
  unfold send. apply String.eqb_neq in Hh. rewrite Hh. by rewrite <- app_assoc.
Qed.

Lemma head_answer rt type b st :
  method req = "HEAD" -> statusCode (res st) = 200 ->
  (statusCode (res (send_body rt type b req st)) = 200 \/
   asks_afresh req = false /\ statusCode (res (send_body rt type b req st)) = 304) /\
  body (res (send_body rt type b req st)) = NoBody.
Proof.
  intros Hm Hs.
  destruct (send_body_ok rt type b req st Hs) as [[E1 E2] | (Hf & E1 & E2)].
  - rewrite E1, E2. unfold send. rewrite Hm. auto.
  - rewrite E1, E2. auto.
Qed.

(** X5: a HEAD request to an inline endpoint is served by its GET route and
    gets no body; the status is 200, or else, and only if the request is
    conditional (it carries If-None-Match or If-Modified-Since, and does not
    say Cache-Control: no-cache), 304. *)
Theorem inline_endpoint_head p :
  p ∈ inline_paths -> targets p req = true -> method req = "HEAD" ->
  parsers_accept req = true ->
  (statusCode (response c env now req) = 200 \/
   asks_afresh req = false /\ statusCode (response c env now req) = 304) /\
  body (response c env now req) = NoBody /\
  ran c env now req =
    (prelude env ++ ["express.json"; "express.urlencoded"; ("GET " ++ p)%string])%list.
Proof.
  intros Hin Ht Hm Hp.
  assert (Ho : method req <> "OPTIONS") by (by rewrite Hm).
  unfold response, ran. rewrite (reaches_routes c env now req Ho Hp).
  unfold inline_paths in Hin. rewrite !elem_of_cons, elem_of_nil in Hin.
  unfold routes, health, api_health, ping, res_json, res_send.
  destruct Hin as [-> | [-> | [-> | []]]].
  - unfold targets in Ht. rewrite dispatch_route, Ht, Hm.
    cbn [andb handles_method String.eqb Ascii.eqb Bool.eqb orb fst snd].
    destruct (head_answer (runtime c) "application/json; charset=utf-8"
                (Json (health_body now)) (status 200 (before_parsers c env req))
                Hm eq_refl) as [Hs Hb].
    rewrite Hb, <- app_assoc. auto.
  - assert (H1 : targets "/health" req = false)
      by (by apply (targets_apart req "/api/health")).
    unfold targets in *. rewrite dispatch_route, H1. cbn [andb].
    rewrite dispatch_route, Ht, Hm.
    cbn [andb handles_method String.eqb Ascii.eqb Bool.eqb orb fst snd].
    destruct (head_answer (runtime c) "application/json; charset=utf-8"
                (Json (api_health_body now)) (status 200 (before_parsers c env req))
                Hm eq_refl) as [Hs Hb].
    rewrite Hb, <- app_assoc. auto.
  - assert (H1 : targets "/health" req = false)
      by (by apply (targets_apart req "/ping")).
    assert (H2 : targets "/api/health" req = false)
      by (by apply (targets_apart req "/ping")).
    unfold targets in *. rewrite dispatch_route, H1. cbn [andb].
    rewrite dispatch_route, H2. cbn [andb].
    rewrite dispatch_route, Ht, Hm.
    cbn [andb handles_method String.eqb Ascii.eqb Bool.eqb orb fst snd].
    destruct (head_answer (runtime c) "text/html; charset=utf-8" (Text "pong")
                (before_parsers c env req) Hm (before_parsers_status c env req))
      as [Hs Hb].
    rewrite Hb, <- app_assoc. auto.
Qed.


(** *** Lines 22-28 and 52: the answer to a preflight *)

(** X6: an OPTIONS request, whatever its path, is answered by the CORS
    layer: status 200, no body, Content-Length 0, the five allowed methods
    and the two allowed headers of [corsOptions], credentials allowed;
    nothing is logged and no parser, route or handler after it runs. *)
Theorem preflight_answer :
  method req = "OPTIONS" ->
  statusCode (response c env now req) = 200 /\
  body (response c env now req) = NoBody /\
  headers (response c env now req) !! "content-length" = Some "0" /\
  headers (response c env now req) !! "access-control-allow-methods"
    = Some "GET,POST,PUT,DELETE,OPTIONS" /\
  headers (response c env now req) !! "access-control-allow-headers"
    = Some "Content-Type,Authorization" /\
  headers (response c env now req) !! "access-control-allow-credentials" = Some "true" /\
  printed c env now req = [] /\
  ran c env now req = ["helmet"; "morgan"; "cors"].
Proof.
  intros Hm. unfold response, printed, ran. rewrite (answers_preflight c env now req Hm).
  unfold preflight, configureAllowedHeaders, configureMethods, configureCredentials.
  cbn [fst snd res headers statusCode body console allowedHeaders methods credentials
       corsOptions join].
  repeat split.
  - by rewrite lookup_insert_eq.
  - rewrite !lookup_insert_ne by done. by rewrite lookup_insert_eq.
  - rewrite !lookup_insert_ne by done. by rewrite lookup_insert_eq.
  - rewrite !lookup_insert_ne by done. by rewrite lookup_insert_eq.
Qed.

(** *** Lines 91-99: errors on the way *)

(** With an error pending, no route is tried: the error handler answers. *)
Lemma routes_pending e st tr :
  dispatch (routes c) (Some e) now req st tr =
  (respond (errorHandler c e req).1 (errorHandler c e req).2 req st,
   (tr ++ ["errorHandler"])%list).
Proof.
  unfold routes, health, api_health, ping, mounted, not_found, error_layer.
  by rewrite !dispatch_route_pending, !dispatch_mount_pending, dispatch_star_pending,
    dispatch_on_error.
Qed.

(** X7: a request for a path nobody serves that does not percent-decode is
    not answered by the 404 handler: matching the catch-all layer raises a
    400 URIError, and the error handler answers it. *)
Theorem undecodable_path_is_an_error :
  method req <> "OPTIONS" -> parsers_accept req = true -> unrouted req = true ->
  decodable (path req) = false ->
  err_status (decode_error (path req)) = 400 /\
  statusCode (response c env now req)
    = (errorHandler c (decode_error (path req)) req).1 /\
  body (response c env now req)
    = send req (errorHandler c (decode_error (path req)) req).2 /\
  ran c env now req =
    (prelude env ++ ["express.json"; "express.urlencoded"; "errorHandler"])%list.
Proof.
  intros Hm Hp Hu Hd. unfold response, ran.
  rewrite (reaches_routes c env now req Hm Hp).
  unfold unrouted, targets in *.
  repeat (apply andb_true_iff in Hu as [Hu ?]).
  repeat match goal with H : negb _ = true |- _ => apply negb_true_iff in H end.
  unfold routes, health, api_health, ping, mounted, not_found, error_layer.
  repeat (rewrite dispatch_route;
          match goal with H : match_exact _ _ = false |- _ => rewrite H; clear H end;
          cbn [andb]).
  repeat (rewrite dispatch_mount;
          match goal with H : match_prefix _ _ = false |- _ => rewrite H; clear H end).
  rewrite dispatch_star, Hd, dispatch_on_error. by rewrite <- app_assoc.
Qed.

Lemma refused_body_run :
  method req <> "OPTIONS" -> parsers_accept req = false ->
  exists e tr,
    (parser_verdict ApplicationJson (mb 10) req = Some e \/
     parser_verdict FormUrlencoded (mb 10) req = Some e) /\
    handle c env now req =
      (respond (errorHandler c e req).1 (errorHandler c e req).2 req
               (before_parsers c env req),
       (prelude env ++ tr ++ ["errorHandler"])%list) /\
    (tr = ["express.json"] \/ tr = ["express.json"; "express.urlencoded"]).
Proof.
  intros Hm Hp. rewrite (reaches_parsers c env now req Hm).
  unfold parsers, body_parser. cbn [List.app]. unfold parsers_accept in Hp.
  destruct (parser_verdict ApplicationJson (mb 10) req) as [e|] eqn:Ej.
  - exists e, ["express.json"]. rewrite dispatch_use, Ej, dispatch_use_pending,
      routes_pending.
    rewrite <- !app_assoc. repeat split; auto.
  - destruct (parser_verdict FormUrlencoded (mb 10) req) as [e|] eqn:Eu; [| done].
    exists e, ["express.json"; "express.urlencoded"].
    rewrite dispatch_use, Ej, dispatch_use, Eu, routes_pending.
    rewrite <- !app_assoc. repeat split; auto.
Qed.

(** X8: a request that a body parser refuses (unsupported charset or
    encoding, over the limit, or content it does not take) reaches no route,
    no route module and no 404 handler: the error handler answers with what
    it makes of the parser's error. *)
Theorem refused_body_is_an_error :
  method req <> "OPTIONS" -> parsers_accept req = false ->
  exists e tr,
    (parser_verdict ApplicationJson (mb 10) req = Some e \/
     parser_verdict FormUrlencoded (mb 10) req = Some e) /\
    statusCode (response c env now req) = (errorHandler c e req).1 /\
    body (response c env now req) = send req (errorHandler c e req).2 /\
    ran c env now req = (prelude env ++ tr ++ ["errorHandler"])%list /\
    (tr = ["express.json"] \/ tr = ["express.json"; "express.urlencoded"]).
Proof.
  intros Hm Hp. destruct (refused_body_run Hm Hp) as (e & tr & Hv & E & Htr).
  exists e, tr. unfold response, ran. rewrite E. done.
Qed.

(** *** Headers from the first layers to the response *)

Lemma header_through k :
  k ∉ body_headers ->
  k <> "access-control-allow-headers" -> k <> "access-control-allow-methods" ->
  headers (response c env now req) !! k = cors_headers c env req !! k.
Proof.
  intros Hb H3 H4. unfold response, cors_headers.
  assert (H2 : k <> "content-length")
    by (unfold body_headers in Hb; rewrite !not_elem_of_cons in Hb; tauto).
  destruct (decide (method req = "OPTIONS")) as [Hm | Hm].
  - rewrite (answers_preflight c env now req Hm). unfold preflight. cbn [fst res headers].
    unfold configureAllowedHeaders, configureMethods.
    cbn [allowedHeaders methods corsOptions].
    by rewrite !lookup_insert_ne by done.
  - rewrite (reaches_parsers c env now req Hm).
    apply (dispatch_late c now req
             (fun st => headers (res st) !! k = _)).
    + intros st st' [_ Hs] Hst. by rewrite Hs.
    + by rewrite before_parsers_headers.
Qed.

(** X9: the CORS layer never makes up an origin: for a request without an
    Origin header (or with an empty one) it adds no
    Access-Control-Allow-Origin, so that no wildcard is ever sent; the
    header is as [helmet] left it. *)
Theorem no_origin_no_allow_origin :
  origin req = None \/ origin req = Some "" ->
  headers (response c env now req) !! "access-control-allow-origin" =
  helmet c (helmetOptions env) (headers (res fresh)) !! "access-control-allow-origin".
Proof.
  intros Ho. rewrite header_through by (done || by apply not_listed).
  unfold cors_headers, configureCredentials, configureOrigin.
  cbn [credentials corsOptions]. rewrite lookup_insert_ne by done.
  rewrite vary_other by done. by destruct Ho as [-> | ->].
Qed.

(** X10: what [helmet] has set, under the options of the environment, is on
    every response: no later layer removes or overwrites a header, apart
    from the headers of the CORS layer, those [res.send] writes for the body
    (Content-Type, Content-Length, ETag, Transfer-Encoding) and those Node
    adds by itself when it writes the head (Date, Connection, Keep-Alive),
    which are not part of this model. *)
Theorem security_headers_survive k :
  k ∉ ["content-type"; "content-length"; "etag"; "transfer-encoding"; "vary";
       "access-control-allow-origin"; "access-control-allow-credentials";
       "access-control-allow-methods"; "access-control-allow-headers";
       "date"; "connection"; "keep-alive"] ->
  headers (response c env now req) !! k =
  helmet c (helmetOptions env) {["x-powered-by" := "Express"]} !! k.
Proof.
  rewrite !not_elem_of_cons. intros (H1 & H2 & H3 & H4 & H5 & H6 & H7 & H8 & H9 & _).
  rewrite header_through;
    [| apply not_listed; cbn; apply String.eqb_neq in H1, H2, H3, H4;
       by rewrite H1, H2, H3, H4 | done | done].
  unfold cors_headers, configureCredentials, configureOrigin.
  cbn [credentials corsOptions]. rewrite lookup_insert_ne by done.
  rewrite vary_other by done.
  destruct (origin req) as [o|]; [| done].
  destruct (String.eqb o ""); [done |]. by rewrite lookup_insert_ne.
Qed.


(** *** The error handler and requests without an error *)

Lemma ordinary_cons l stack :
  ordinary (l :: stack) =
  if is_ordinary l then label l :: ordinary stack else ordinary stack.
Proof. unfold ordinary. cbn [List.filter]. by destruct (is_ordinary l). Qed.

(** While no layer raises an error, only ordinary middleware and routes
    run. *)
Lemma dispatch_ordinary stack :
  Forall (raises_nothing now req) stack ->
  forall st tr, exists tr',
    (dispatch stack None now req st tr).2 = (tr ++ tr')%list /\
    forall x, x ∈ tr' -> x ∈ ordinary stack.
Proof.
  induction 1 as [|l rest [Hmatch Hrun] _ IH]; intros st tr.
  - exists []. split; [simpl; by rewrite app_nil_r | by intros x Hx%elem_of_nil].
  - assert (Skip : exists tr',
      (dispatch rest None now req st tr).2 = (tr ++ tr')%list /\
      forall x, x ∈ tr' -> x ∈ ordinary (l :: rest)).
    { destruct (IH st tr) as (tr' & E & S). exists tr'. split; [done |].
      intros x Hx. rewrite ordinary_cons. destruct (is_ordinary l); auto.
      apply elem_of_cons. auto. }
    assert (Run : forall f, handler l = Normal f -> exists tr',
      (match f now req st with
       | Next st' => dispatch rest None now req st' (tr ++ [label l])
       | NextErr e st' => dispatch rest (Some e) now req st' (tr ++ [label l])
       | End st' => (st', (tr ++ [label l])%list)
       end).2 = (tr ++ tr')%list /\
      forall x, x ∈ tr' -> x ∈ ordinary (l :: rest)).
    { intros f Hf. rewrite ordinary_cons. unfold is_ordinary. rewrite Hf in *.
      destruct (f now req st) as [st'|e st'|st'] eqn:E.
      - destruct (IH st' (tr ++ [label l])%list) as (tr' & E' & S).
        exists (label l :: tr'). rewrite E', <- app_assoc. split; [done |].
        intros x [-> | Hx]%elem_of_cons; apply elem_of_cons; auto.
      - by destruct (Hrun st e st').
      - exists [label l]. split; [done |].
        intros x [-> | Hx]%elem_of_cons; [apply elem_of_cons; auto |].
        by apply elem_of_nil in Hx. }
    simpl. destruct (layer_match l req) as [| |e] eqn:El;
      [| exact Skip | by destruct (Hmatch e)].
    destruct (is_route l), (handler l) as [f|f] eqn:Hf; try exact Skip.
    + destruct (handles_method _ _); [by apply Run | exact Skip].
    + by apply Run.
Qed.

Lemma app_raises_nothing :
  parsers_accept req = true -> decodable (path req) = true ->
  (forall p r e, (p, r) ∈ mounts c -> r req <> Fail e) ->
  Forall (raises_nothing now req) (app c env).
Proof.
  intros [Hj Hu]%parsers_accept_inv Hd Hmod.
  assert (Hmounted : forall p r, (p, r) ∈ mounts c ->
    forall st e st',
      match r req with
      | Respond code b => End (respond code b req st)
      | PassOn => Next st
      | Fail e => NextErr e st
      end <> NextErr e st').
  { intros p r Hin st e st'. pose proof (Hmod p r) as Hr.
    destruct (r req) as [| |e0]; try done. by destruct (Hr e0 Hin). }
  unfold mounts in Hmounted.
  unfold app, security, logging, parsers, routes, cors, diagnostic, body_parser,
    health, api_health, ping, mounted, not_found, error_layer.
  destruct (production env); cbn [List.app];
    repeat apply Forall_cons_2; try apply Forall_nil_2;
    (split;
     [ intros e; unfold layer_match; cbn [mount];
       repeat match goal with
       | |- context [if ?b then _ else _] => destruct b eqn:?
       end; first [done | congruence]
     | cbn [handler]; try done; try rewrite Hj; try rewrite Hu; try done ]).
  all: try (intros st e st';
            repeat match goal with
            | |- context [if ?b then _ else _] => destruct b
            end; done).
  all: try (eapply Hmounted; rewrite !elem_of_cons; eauto 10).
Qed.

(** X11: the error handler is for errors only: for a request that the body
    parsers let through, whose path decodes, and on which no route module
    forwards an error, it does not run. *)
Theorem error_handler_only_on_error :
  parsers_accept req = true -> decodable (path req) = true ->
  (forall p r e, (p, r) ∈ mounts c -> r req <> Fail e) ->
  "errorHandler" ∉ ran c env now req.
Proof.
  intros Hp Hd Hmod Hin. unfold ran, handle in Hin.
  destruct (dispatch_ordinary (app c env) (app_raises_nothing Hp Hd Hmod) fresh [])
    as (tr & E & Hsub).
  rewrite E in Hin. apply Hsub in Hin. revert Hin. apply not_listed.
  unfold app, logging. by destruct (production env).
Qed.


(** *** What a handler can count on when it runs *)

(** Only layers that apply to the request run. *)
Lemma dispatch_applies stack : forall err st tr,
  exists tr', (dispatch stack err now req st tr).2 = (tr ++ tr')%list /\
    forall x, x ∈ tr' -> exists l, l ∈ stack /\ label l = x /\ applies req l = true.
Proof.
  induction stack as [|l rest IH]; intros err st tr.
  - exists []. split; [simpl; by rewrite app_nil_r | by intros x Hx%elem_of_nil].
  - assert (Skip : forall err', exists tr',
      (dispatch rest err' now req st tr).2 = (tr ++ tr')%list /\
      forall x, x ∈ tr' ->
        exists l', l' ∈ l :: rest /\ label l' = x /\ applies req l' = true).
    { intros err'. destruct (IH err' st tr) as (tr' & E & S). exists tr'.
      split; [done |]. intros x Hx. destruct (S x Hx) as (l' & Hl' & Hx' & Ha).
      exists l'. rewrite elem_of_cons. auto. }
    assert (Run : applies req l = true -> forall s, exists tr',
      (match s with
       | Next st' => dispatch rest None now req st' (tr ++ [label l])
       | NextErr e st' => dispatch rest (Some e) now req st' (tr ++ [label l])
       | End st' => (st', (tr ++ [label l])%list)
       end).2 = (tr ++ tr')%list /\
      forall x, x ∈ tr' ->
        exists l', l' ∈ l :: rest /\ label l' = x /\ applies req l' = true).
    { intros Ha s.
      assert (Hcons : forall tr', (forall x, x ∈ tr' ->
                 exists l', l' ∈ rest /\ label l' = x /\ applies req l' = true) ->
               forall x, x ∈ label l :: tr' ->
                 exists l', l' ∈ l :: rest /\ label l' = x /\ applies req l' = true).
      { intros tr' S x [-> | Hx]%elem_of_cons.
        - exists l. rewrite elem_of_cons. auto.
        - destruct (S x Hx) as (l' & Hl' & Hx' & Ha'). exists l'.
          rewrite elem_of_cons. auto. }
      destruct s as [st'|e st'|st'].
      - destruct (IH None st' (tr ++ [label l])%list) as (tr' & E & S).
        exists (label l :: tr'). rewrite E, <- app_assoc. split; [done | by apply Hcons].
      - destruct (IH (Some e) st' (tr ++ [label l])%list) as (tr' & E & S).
        exists (label l :: tr'). rewrite E, <- app_assoc. split; [done | by apply Hcons].
      - exists [label l]. split; [done |]. apply Hcons. by intros x Hx%elem_of_nil. }
    simpl. unfold applies in Run.
    destruct (layer_match l req); [| apply Skip | apply Skip].
    destruct (is_route l), err, (handler l); try apply Skip; try (by apply Run).
    destruct (handles_method _ _); [by apply Run | apply Skip].
Qed.

Lemma ran_applies x :
  x ∈ ran c env now req ->
  exists l, l ∈ app c env /\ label l = x /\ applies req l = true.
Proof.
  unfold ran, handle.
  destruct (dispatch_applies (app c env) None fresh []) as (tr & -> & S). apply S.
Qed.

Ltac each_layer Hl :=
  unfold app, security, logging, parsers, routes in Hl;
  destruct (production env); cbn [List.app] in Hl;
  rewrite !elem_of_cons, elem_of_nil in Hl;
  repeat (destruct Hl as [-> | Hl]; [try discriminate |]); try done.

(** X16: a route module only ever sees a request under its own mount path,
    that is not a preflight, and whose body the parsers let through. *)
Theorem route_module_sees_its_own p r :
  (p, r) ∈ mounts c -> p ∈ ran c env now req ->
  match_prefix p (path req) = true /\
  method req <> "OPTIONS" /\
  parsers_accept req = true.
Proof.
  intros Hin Hran. unfold mounts in Hin. rewrite !elem_of_cons, elem_of_nil in Hin.
  assert (Hp : p ∈ route_modules).
  { unfold route_modules. rewrite !elem_of_cons.
    destruct Hin as [[= -> ->] | [[= -> ->] | [[= -> ->] | [[= -> ->] | []]]]]; auto. }
  split; [| split].
  - destruct (ran_applies p Hran) as (l & Hl & Hlabel & Ha).
    unfold applies, layer_match in *.
    destruct Hin as [[= -> ->] | [[= -> ->] | [[= -> ->] | [[= -> ->] | []]]]];
      each_layer Hl; cbn [mount] in Ha;
      by destruct (match_prefix _ _).
  - intros Hm. unfold ran in Hran. rewrite (answers_preflight c env now req Hm) in Hran.
    revert Hran. apply not_listed. unfold route_modules in Hp.
    rewrite !elem_of_cons, elem_of_nil in Hp.
    by destruct Hp as [-> | [-> | [-> | [-> | []]]]].
  - destruct (parsers_accept req) eqn:Hacc; [done | exfalso].
    destruct (decide (method req = "OPTIONS")) as [Hm | Hm].
    + unfold ran in Hran. rewrite (answers_preflight c env now req Hm) in Hran.
      revert Hran. apply not_listed. unfold route_modules in Hp.
      rewrite !elem_of_cons, elem_of_nil in Hp.
      by destruct Hp as [-> | [-> | [-> | [-> | []]]]].
    + destruct (refused_body_run Hm Hacc) as (e & tr & _ & E & Htr).
      unfold ran in Hran. rewrite E in Hran. cbn [snd] in Hran. revert Hran. apply not_listed. unfold prelude.
      unfold route_modules in Hp. rewrite !elem_of_cons, elem_of_nil in Hp.
      by destruct (production env), Htr as [-> | ->],
        Hp as [-> | [-> | [-> | [-> | []]]]].
Qed.

(** X17: the handler of an inline endpoint runs only for a GET or HEAD
    request addressed to its path. *)
Theorem inline_handler_runs_for_its_route p :
  p ∈ inline_paths -> ("GET " ++ p)%string ∈ ran c env now req ->
  targets p req = true /\ (method req = "GET" \/ method req = "HEAD").
Proof.
  intros Hin Hran. destruct (ran_applies _ Hran) as (l & Hl & Hlabel & Ha).
  unfold inline_paths in Hin. rewrite !elem_of_cons, elem_of_nil in Hin.
  unfold applies, layer_match, targets in *.
  assert (Hverb : forall m, handles_method "GET" m = true -> m = "GET" \/ m = "HEAD").
  { intros m. unfold handles_method.
    intros [H | [H _]%andb_true_iff]%orb_true_iff; apply String.eqb_eq in H; auto. }
  destruct Hin as [-> | [-> | [-> | []]]]; each_layer Hl;
    cbn [mount is_route] in Ha;
    destruct (match_exact _ _); try done; auto.
Qed.

End Routing.

(** ** Bodies and timestamps *)

(** X12: a JSON body of the application reads back: whenever the response
    body is an object, parsing the text put on the wire gives that object,
    key for key, whatever characters the strings hold (the request target
    quoted by the 404 message, for one). *)
Theorem json_body_reads_back c env now req o :
  body (response c env now req) = Json o ->
  JSON.parse (wire (body (response c env now req))) = Some o.
Proof. intros ->. apply JSONFacts.parse_stringify. Qed.

(** X13: the health body tells instants apart: two health bodies are the
    same text on the wire only if they were made at the same millisecond. *)
Theorem health_body_tells_instants_apart t t' :
  - JsDate.maxTime <= t <= JsDate.maxTime ->
  - JsDate.maxTime <= t' <= JsDate.maxTime ->
  wire (Json (health_body t)) = wire (Json (health_body t')) -> t = t'.
Proof.
  intros Ht Ht' E. cbn [wire] in E.
  apply (f_equal JSON.parse) in E. rewrite !JSONFacts.parse_stringify in E.
  injection E as E. apply (f_equal JsDate.parse) in E.
  rewrite !JsDateFacts.parse_toISOString in E by done. by injection E.
Qed.

(** ** The further statements at concrete requests *)

Lemma mounted_module_answers_witness :
  statusCode (response Sample.collaborators Sample.development Sample.clock
                Probe.post_product) = 201 /\
  body (response Sample.collaborators Sample.development Sample.clock
          Probe.post_product) = Json [("created", "yes")] /\
  ran Sample.collaborators Sample.development Sample.clock Probe.post_product =
    ["helmet"; "morgan"; "cors"; "diagnostic"; "express.json"; "express.urlencoded";
     "/api/products"].
Proof.
  refine (mounted_module_answers Sample.collaborators Sample.development Sample.clock
            Probe.post_product "/api/products" Sample.router 201
            (Json [("created", "yes")]) _ _ eq_refl eq_refl eq_refl).
  - unfold mounts. rewrite !elem_of_cons. auto.
  - discriminate.
Defined.

Lemma mounted_module_passes_on_witness :
  statusCode (response Sample.collaborators Sample.development Sample.clock
                Probe.get_item) = 404 /\
  body (response Sample.collaborators Sample.development Sample.clock Probe.get_item)
    = Json (not_found_body Probe.get_item) /\
  ran Sample.collaborators Sample.development Sample.clock Probe.get_item =
    ["helmet"; "morgan"; "cors"; "diagnostic"; "express.json"; "express.urlencoded";
     "/api/shop"; "*"].
Proof.
  refine (mounted_module_passes_on Sample.collaborators Sample.development Sample.clock
            Probe.get_item "/api/shop" Sample.router _ _ eq_refl eq_refl eq_refl eq_refl).
  - unfold mounts. rewrite !elem_of_cons. auto 10.
  - discriminate.
Defined.

Lemma mounted_module_error_witness :
  statusCode (response Sample.collaborators Sample.development Sample.clock
                Sample.delete_item) = 403 /\
  body (response Sample.collaborators Sample.development Sample.clock
          Sample.delete_item) = Json [("error", "forbidden")] /\
  ran Sample.collaborators Sample.development Sample.clock Sample.delete_item =
    ["helmet"; "morgan"; "cors"; "diagnostic"; "express.json"; "express.urlencoded";
     "/api/shop"; "errorHandler"].
Proof.
  refine (mounted_module_error Sample.collaborators Sample.development Sample.clock
            Sample.delete_item "/api/shop" Sample.router
            {| err_name := "Error"; err_status := 403; err_message := "forbidden" |}
            _ _ eq_refl eq_refl eq_refl).
  - unfold mounts. rewrite !elem_of_cons. auto 10.
  - discriminate.
Defined.

Lemma inline_endpoint_other_verb_witness :
  statusCode (response Sample.collaborators Sample.live Sample.clock
                Sample.post_health) = 404 /\
  body (response Sample.collaborators Sample.live Sample.clock Sample.post_health)
    = Json (not_found_body Sample.post_health) /\
  ran Sample.collaborators Sample.live Sample.clock Sample.post_health =
    ["helmet"; "morgan"; "cors"; "express.json"; "express.urlencoded"; "*"].
Proof.
  refine (inline_endpoint_other_verb Sample.collaborators Sample.live Sample.clock
            Sample.post_health "/health" _ eq_refl _ _ _ eq_refl);
    [unfold inline_paths; rewrite !elem_of_cons; auto | discriminate ..].
Defined.

Lemma inline_endpoint_head_witness :
  asks_afresh Probe.head_ping = true /\
  statusCode (response Sample.collaborators Sample.live Sample.clock
                Probe.head_ping) = 200 /\
  body (response Sample.collaborators Sample.live Sample.clock Probe.head_ping)
    = NoBody /\
  ran Sample.collaborators Sample.live Sample.clock Probe.head_ping =
    ["helmet"; "morgan"; "cors"; "express.json"; "express.urlencoded"; "GET /ping"].
Proof.
  assert (Hin : "/ping" ∈ inline_paths)
    by (unfold inline_paths; rewrite !elem_of_cons; auto).
  assert (Hf : asks_afresh Probe.head_ping = true) by reflexivity.
  destruct (inline_endpoint_head Sample.collaborators Sample.live Sample.clock
              Probe.head_ping "/ping" Hin eq_refl eq_refl eq_refl)
    as ([Hs | [Hn _]] & Hb & Hr).
  - exact (conj Hf (conj Hs (conj Hb Hr))).
  - rewrite Hf in Hn. discriminate Hn.
Defined.

Lemma preflight_answer_witness :
  statusCode (response Sample.collaborators Sample.development Sample.clock
                Sample.options_unknown) = 200 /\
  headers (response Sample.collaborators Sample.development Sample.clock
             Sample.options_unknown) !! "access-control-allow-methods"
    = Some "GET,POST,PUT,DELETE,OPTIONS" /\
  headers (response Sample.collaborators Sample.development Sample.clock
             Sample.options_unknown) !! "access-control-allow-headers"
    = Some "Content-Type,Authorization".
Proof.
  pose proof (preflight_answer Sample.collaborators Sample.development Sample.clock
                Sample.options_unknown eq_refl) as (H1 & _ & _ & H2 & H3 & _).
  exact (conj H1 (conj H2 H3)).
Defined.

Lemma undecodable_path_is_an_error_witness :
  decodable (path Probe.get_broken) = false /\
  statusCode (response Sample.collaborators Sample.development Sample.clock
                Probe.get_broken) = 400 /\
  ran Sample.collaborators Sample.development Sample.clock Probe.get_broken =
    ["helmet"; "morgan"; "cors"; "diagnostic"; "express.json"; "express.urlencoded";
     "errorHandler"].
Proof.
  assert (H : method Probe.get_broken <> "OPTIONS") by discriminate.
  pose proof (undecodable_path_is_an_error Sample.collaborators Sample.development
                Sample.clock Probe.get_broken H eq_refl eq_refl eq_refl)
    as (_ & H1 & _ & H2).
  exact (conj eq_refl (conj H1 H2)).
Defined.

Lemma refused_body_is_an_error_witness :
  parsers_accept Sample.big_json = false /\
  exists e tr,
    (parser_verdict ApplicationJson (mb 10) Sample.big_json = Some e \/
     parser_verdict FormUrlencoded (mb 10) Sample.big_json = Some e) /\
    statusCode (response Sample.collaborators Sample.development Sample.clock
                  Sample.big_json) = (Sample.on_error e Sample.big_json).1 /\
    body (response Sample.collaborators Sample.development Sample.clock
            Sample.big_json) = send Sample.big_json (Sample.on_error e Sample.big_json).2 /\
    ran Sample.collaborators Sample.development Sample.clock Sample.big_json =
      (prelude Sample.development ++ tr ++ ["errorHandler"])%list /\
    (tr = ["express.json"] \/ tr = ["express.json"; "express.urlencoded"]).
Proof.
  assert (H : method Sample.big_json <> "OPTIONS") by discriminate.
  exact (conj eq_refl
    (refused_body_is_an_error Sample.collaborators Sample.development Sample.clock
       Sample.big_json H eq_refl)).
Defined.

Lemma no_origin_no_allow_origin_witness :
  origin Sample.get_ping = None /\
  headers (response Sample.collaborators Sample.development Sample.clock
             Sample.get_ping) !! "access-control-allow-origin" = None.
Proof.
  exact (conj eq_refl
    (no_origin_no_allow_origin Sample.collaborators Sample.development Sample.clock
       Sample.get_ping (or_introl eq_refl))).
Defined.

Lemma security_headers_survive_witness :
  headers (response Sample.collaborators Sample.live Sample.clock Sample.delete_item)
    !! "content-security-policy" = Some "default-src 'self'" /\
  headers (response Sample.collaborators Sample.live Sample.clock Sample.delete_item)
    !! "x-powered-by" = None.
Proof.
  split.
  - refine (security_headers_survive Sample.collaborators Sample.live Sample.clock
              Sample.delete_item "content-security-policy" _).
    apply not_listed. reflexivity.
  - refine (security_headers_survive Sample.collaborators Sample.live Sample.clock
              Sample.delete_item "x-powered-by" _).
    apply not_listed. reflexivity.
Defined.

Lemma error_handler_only_on_error_witness :
  parsers_accept Probe.get_item = true /\
  decodable (path Probe.get_item) = true /\
  "errorHandler" ∉ ran Sample.collaborators Sample.development Sample.clock
                     Probe.get_item.
Proof.
  refine (conj eq_refl (conj eq_refl
    (error_handler_only_on_error Sample.collaborators Sample.development Sample.clock
       Probe.get_item eq_refl eq_refl _))).
  intros p r e Hin. unfold mounts in Hin. rewrite !elem_of_cons, elem_of_nil in Hin.
  destruct Hin as [[= -> ->] | [[= -> ->] | [[= -> ->] | [[= -> ->] | []]]]];
    discriminate.
Defined.

Lemma json_body_reads_back_witness :
  JSON.parse (wire (body (response Sample.collaborators Sample.live Sample.clock
                            Sample.get_unknown)))
  = Some [("error", "Route not found");
          ("message", "The endpoint /no-such-route?x=1 does not exist")].
Proof.
  exact (json_body_reads_back Sample.collaborators Sample.live Sample.clock
           Sample.get_unknown _ eq_refl).
Defined.

Lemma health_body_tells_instants_apart_witness :
  wire (Json (health_body Sample.clock)) = wire (Json (health_body (0 + Sample.clock))) /\
  Sample.clock = 0 + Sample.clock.
Proof.
  refine (conj eq_refl
    (health_body_tells_instants_apart Sample.clock (0 + Sample.clock) _ _ eq_refl));
    unfold JsDate.maxTime, Sample.clock; lia.
Defined.

(** POST /api/auth#x: the path is /api/auth, and the auth module runs. *)
Lemma route_module_sees_its_own_witness :
  originalUrl Probe.post_auth_fragment = "/api/auth#x" /\
  parseurl (originalUrl Probe.post_auth_fragment) = Some (path Probe.post_auth_fragment) /\
  "/api/auth" ∈ ran Sample.collaborators Sample.development Sample.clock
                  Probe.post_auth_fragment /\
  match_prefix "/api/auth" (path Probe.post_auth_fragment) = true /\
  method Probe.post_auth_fragment <> "OPTIONS" /\
  parsers_accept Probe.post_auth_fragment = true.
Proof.
  assert (H : "/api/auth" ∈ ran Sample.collaborators Sample.development Sample.clock
                              Probe.post_auth_fragment).
  { assert (E : ran Sample.collaborators Sample.development Sample.clock
                   Probe.post_auth_fragment =
                 ["helmet"; "morgan"; "cors"; "diagnostic"; "express.json";
                  "express.urlencoded"; "/api/auth"])
      by (vm_compute; reflexivity).
    rewrite E, !elem_of_cons. auto 10. }
  refine (conj eq_refl (conj eq_refl (conj H
    (route_module_sees_its_own Sample.collaborators Sample.development
       Sample.clock Probe.post_auth_fragment "/api/auth" Sample.router _ H)))).
  unfold mounts. rewrite !elem_of_cons. auto 10.
Defined.

(** GET /health#frag: the path is /health, and the /health handler runs. *)
Lemma inline_handler_runs_for_its_route_witness :
  originalUrl Probe.get_health_fragment = "/health#frag" /\
  parseurl (originalUrl Probe.get_health_fragment)
    = Some (path Probe.get_health_fragment) /\
  "GET /health" ∈ ran Sample.collaborators Sample.live Sample.clock
                    Probe.get_health_fragment /\
  targets "/health" Probe.get_health_fragment = true /\
  (method Probe.get_health_fragment = "GET" \/ method Probe.get_health_fragment = "HEAD").
Proof.
  assert (H : "GET /health" ∈ ran Sample.collaborators Sample.live Sample.clock
                                Probe.get_health_fragment).
  { assert (E : ran Sample.collaborators Sample.live Sample.clock
                   Probe.get_health_fragment =
                 ["helmet"; "morgan"; "cors"; "express.json"; "express.urlencoded";
                  "GET /health"])
      by (vm_compute; reflexivity).
    rewrite E, !elem_of_cons. auto 10. }
  refine (conj eq_refl (conj eq_refl (conj H
    (inline_handler_runs_for_its_route Sample.collaborators Sample.live
       Sample.clock Probe.get_health_fragment "/health" _ H)))).
  unfold inline_paths. rewrite !elem_of_cons. auto.
Defined.
